(** * Workflow analyzer and its handler: a shallow embedding of
      [event-processors/workflow-analyzer/analyzer.py] and [handler.py]

    The analyzer receives the text of a GitHub Actions workflow, decodes it
    with [yaml.safe_load] and walks the decoded value to collect the
    runners, containers and actions the workflow depends on.  The decoded
    value is modelled by [pyval]; the loader itself is not part of the
    repository and enters as a section variable whose calls return, raise
    a [YAMLError] or raise something else.  The handler feeds the
    analyzer with the records of a queue event and counts how many of them
    it could process. *)

From Stdlib Require Import List String Ascii Bool Arith Lia ZArith.
Import ListNotations.
Open Scope string_scope.
Open Scope list_scope.

Set Implicit Arguments.
Set Warnings "-register-all".

(** ** Python strings

    A [str] is modelled as a Rocq [string]; a character is an [ascii]
    (code points 0..255), on which the class [\d] is exactly [0-9]. *)

Module PyStr.

(** [s.startswith(p)] *)
Definition startswith (s p : string) : bool := String.prefix p s.

(** [s[n:]] *)
Fixpoint drop (n : nat) (s : string) : string :=
  match n, s with
  | O, _ => s
  | S _, EmptyString => EmptyString
  | S k, String _ r => drop k r
  end.

(** [c in s] for a one-character [c] *)
Fixpoint contains (c : ascii) (s : string) : bool :=
  match s with
  | EmptyString => false
  | String a r => Ascii.eqb a c || contains c r
  end.

(** [s.split(c)] for a one-character separator: every occurrence of the
    separator cuts, so the result has one more element than [s] has
    separators, and [''.split(c) == ['']]. *)
Fixpoint split (c : ascii) (s : string) : list string :=
  match s with
  | EmptyString => [EmptyString]
  | String a r =>
      if Ascii.eqb a c then EmptyString :: split c r
      else match split c r with
           | [] => [String a EmptyString]
           | h :: t => String a h :: t
           end
  end.

(** number of occurrences of [c] in [s] ([s.count(c)]) *)
Fixpoint count (c : ascii) (s : string) : nat :=
  match s with
  | EmptyString => 0
  | String a r => (if Ascii.eqb a c then 1 else 0) + count c r
  end.

(** [bool(s)] *)
Definition nonempty (s : string) : bool :=
  match s with EmptyString => false | _ => true end.

(** [sub in s] *)
Fixpoint has_substring (sub s : string) : bool :=
  String.prefix sub s
  || match s with
     | EmptyString => false
     | String _ r => has_substring sub r
     end.

(** [all(p(ch) for ch in s)] *)
Fixpoint all (p : ascii -> bool) (s : string) : bool :=
  match s with
  | EmptyString => true
  | String a r => p a && all p r
  end.

(** the characters of [s], as [for ch in s] yields them *)
Fixpoint chars (s : string) : list string :=
  match s with
  | EmptyString => []
  | String a r => String a EmptyString :: chars r
  end.

End PyStr.

(** ** Regular expressions, as far as the two patterns of the class need

    A pattern is a sequence of items.  [matches] is [Pattern.match]: the
    pattern must match at position 0 and may leave a rest.  [Eol] is
    Python's [$] without [re.MULTILINE]: it holds at the end of the string
    and also just before a newline that ends the string. *)

Module Re.

Inductive item :=
| Bol                                   (* ^ *)
| Eol                                   (* $ *)
| One (p : ascii -> bool)               (* a class, once *)
| Opt (p : ascii -> bool)               (* a class, ? *)
| Plus (p : ascii -> bool)              (* a class, + *)
| Rep (n : nat) (p : ascii -> bool).    (* a class, {n} *)

Definition pattern := list item.

Definition newline : ascii := "010"%char.

Definition at_eol (s : string) : bool :=
  match s with
  | EmptyString => true
  | String a EmptyString => Ascii.eqb a newline
  | _ => false
  end.

(** [run pos its s]: do the items [its] match a prefix of [s], where [s]
    starts at offset [pos] of the subject? *)
Fixpoint run (its : pattern) : nat -> string -> bool :=
  match its with
  | [] => fun _ _ => true
  | it :: rest =>
      let k := run rest in
      match it with
      | Bol => fun pos s => Nat.eqb pos 0 && k pos s
      | Eol => fun pos s => at_eol s && k pos s
      | One p => fun pos s =>
          match s with
          | String a r => p a && k (S pos) r
          | EmptyString => false
          end
      | Opt p => fun pos s =>
          match s with
          | String a r => (p a && k (S pos) r) || k pos s
          | EmptyString => k pos s
          end
      | Plus p =>
          fix more (pos : nat) (s : string) {struct s} : bool :=
            match s with
            | String a r => p a && (more (S pos) r || k (S pos) r)
            | EmptyString => false
            end
      | Rep n p =>
          (fix times (n : nat) : nat -> string -> bool :=
             match n with
             | O => k
             | S m => fun pos s =>
                 match s with
                 | String a r => p a && times m (S pos) r
                 | EmptyString => false
                 end
             end) n
      end
  end.

Definition matches (re : pattern) (s : string) : bool := run re 0 s.

(** character classes *)
Definition in_range (lo hi : ascii) (a : ascii) : bool :=
  Nat.leb (nat_of_ascii lo) (nat_of_ascii a)
  && Nat.leb (nat_of_ascii a) (nat_of_ascii hi).

Definition digit (a : ascii) : bool := in_range "0" "9" a.          (* \d *)
Definition lower_hex (a : ascii) : bool :=                            (* [a-f0-9] *)
  in_range "a" "f" a || in_range "0" "9" a.
Definition lit (c : ascii) (a : ascii) : bool := Ascii.eqb a c.

End Re.

(** ** Values built by the loader

    [yaml.safe_load] builds [None], [bool], [int], [float], [str],
    [datetime.date], [bytes], [list], [dict], [set] and (for [!!omap] and
    [!!pairs]) lists of tuples.  Keys of a [dict] are hashable, hence
    scalars.  Of a float only its truthiness is visible to the analyzer.  A
    [dict] keeps its entries in document order and holds no key twice
    ([Py.distinct_keys]); the list that models it does not enforce this, and
    a property that depends on it states it. *)

Inductive scalar :=
| SNone
| SBool (b : bool)
| SInt (z : Z)
| SFloat (nonzero : bool)
| SStr (s : string)
| SDate (iso : string)
| SBytes (b : string).

Inductive pyval :=
| PScalar (a : scalar)
| PList (l : list pyval)
| PDict (d : list (scalar * pyval))
| PSet (l : list scalar)
| PTuple (l : list pyval).

Abbreviation PNone := (PScalar SNone).
Abbreviation PStr s := (PScalar (SStr s)).
Abbreviation PInt z := (PScalar (SInt z)).
Abbreviation PBool b := (PScalar (SBool b)).

Definition pydict := list (scalar * pyval).

Module Py.

(** [bool(v)] *)
Definition truthy (v : pyval) : bool :=
  match v with
  | PScalar SNone => false
  | PScalar (SBool b) => b
  | PScalar (SInt z) => negb (Z.eqb z 0)
  | PScalar (SFloat nz) => nz
  | PScalar (SStr s) => PyStr.nonempty s
  | PScalar (SDate _) => true
  | PScalar (SBytes b) => PyStr.nonempty b
  | PList l => match l with [] => false | _ => true end
  | PDict d => match d with [] => false | _ => true end
  | PSet l => match l with [] => false | _ => true end
  | PTuple l => match l with [] => false | _ => true end
  end.

(** a key equals the string [k] only when it is that very [str] *)
Definition key_is (k : string) (a : scalar) : bool :=
  match a with
  | SStr s => String.eqb s k
  | _ => false
  end.

(** the integer a numeric key is equal to; of a float the model keeps no
    value *)
Definition key_number (a : scalar) : option (option Z) :=
  match a with
  | SBool b => Some (Some (if b then 1 else 0)%Z)
  | SInt z => Some (Some z)
  | SFloat _ => Some None
  | _ => None
  end.

(** can [a == b] hold of two keys?  [True == 1] and [1.0 == 1] are equal
    keys; a float is taken to be equal to any number *)
Definition same_key (a b : scalar) : bool :=
  match key_number a, key_number b with
  | Some (Some x), Some (Some y) => Z.eqb x y
  | Some _, Some _ => true
  | None, None =>
      match a, b with
      | SNone, SNone => true
      | SStr s, SStr t => String.eqb s t
      | SDate s, SDate t => String.eqb s t
      | SBytes s, SBytes t => String.eqb s t
      | _, _ => false
      end
  | _, _ => false
  end.

(** a [dict] holds no key twice *)
Fixpoint distinct_keys (d : list (scalar * pyval)) : bool :=
  match d with
  | [] => true
  | (k, _) :: rest =>
      negb (existsb (fun e => same_key k (fst e)) rest) && distinct_keys rest
  end.

(** [d[k]] when present *)
Fixpoint lookup (d : pydict) (k : string) : option pyval :=
  match d with
  | [] => None
  | (a, v) :: rest => if key_is k a then Some v else lookup rest k
  end.

(** [d.get(k, default)] *)
Definition get_default (d : pydict) (k : string) (default : pyval) : pyval :=
  match lookup d k with
  | Some v => v
  | None => default
  end.

(** [d.get(k)] *)
Definition get (d : pydict) (k : string) : pyval := get_default d k PNone.

(** [len(v)]; [None] where Python raises [TypeError] *)
Definition len (v : pyval) : option nat :=
  match v with
  | PScalar (SStr s) => Some (String.length s)
  | PScalar (SBytes b) => Some (String.length b)
  | PScalar _ => None
  | PList l => Some (List.length l)
  | PDict d => Some (List.length d)
  | PSet l => Some (List.length l)
  | PTuple l => Some (List.length l)
  end.

(** what [for x in v] yields; [None] where [v] is not iterable *)
Definition iter (v : pyval) : option (list pyval) :=
  match v with
  | PScalar (SStr s) => Some (map (fun c => PStr c) (PyStr.chars s))
  | PScalar (SBytes b) =>
      Some (map (fun c => match c with
                          | String a _ => PInt (Z.of_nat (nat_of_ascii a))
                          | EmptyString => PInt 0
                          end) (PyStr.chars b))
  | PScalar _ => None
  | PList l => Some l
  | PDict d => Some (map (fun kv => PScalar (fst kv)) d)
  | PSet l => Some (map PScalar l)
  | PTuple l => Some l
  end.

End Py.

(** ** [shared/models.py]: [WorkflowDependency] *)

Inductive dependency_type := Action | Runner | Container.
Inductive pinning := Sha | Tag | Branch | Unpinned.

Record WorkflowDependency := mkDep {
  type : dependency_type;
  name : string;
  version : option string;
  pinning_strategy : pinning;
  raw_reference : string
}.

(** [WorkflowEvent]: a dataclass does not check the types of its fields,
    which hold whatever the message holds *)
Record WorkflowEvent := mkEvent {
  repository_owner : pyval;
  repository_name : pyval;
  repository_full_name : pyval;
  workflow_path : pyval;
  workflow_ref : pyval;
  commit_sha : pyval;
  commit_message : pyval;
  commit_author : pyval;
  event_type : pyval;
  timestamp : pyval
}.

(** the string a [Literal] field holds *)
Definition type_str (t : dependency_type) : string :=
  match t with
  | Action => "action"
  | Runner => "runner"
  | Container => "container"
  end.

Definition pinning_str (p : pinning) : string :=
  match p with
  | Sha => "sha"
  | Tag => "tag"
  | Branch => "branch"
  | Unpinned => "unpinned"
  end.

(** ** Exceptions and outcomes of a call

    A [ValueError] carries the message the source gives it; of the
    exceptions the interpreter raises only the class is kept. *)

Inductive exn :=
| ValueError (msg : string)
| AttributeError
| TypeError
| KeyError (key : string).

Inductive outcome (A : Type) :=
| Return (a : A)
| Raise (e : exn).

(** what a call of [yaml.safe_load] does: it returns the decoded value,
    raises an exception of class [yaml.YAMLError] (kept: its text), or
    raises another exception, as the [ValueError] of an impossible date *)
Inductive loaded :=
| Loaded (value : pyval)
| YAMLError (text : string)
| LoaderRaises (e : exn).

Arguments Return {A} a.
Arguments Raise {A} e.

Definition bind {A B : Type} (m : outcome A) (k : A -> outcome B) : outcome B :=
  match m with
  | Return a => k a
  | Raise e => Raise e
  end.

Notation "x <- m ;; k" := (bind m (fun x => k))
  (at level 61, m at next level, right associativity).

(** ** [analyzer.py]: class [WorkflowAnalyzer] *)

Module WorkflowAnalyzer.

(** [re.compile(r'^[a-f0-9]{40}$')] *)
Definition SHA_PATTERN : Re.pattern :=
  [Re.Bol; Re.Rep 40 Re.lower_hex; Re.Eol].

(** [re.compile(r'^v?\d+\.\d+\.\d+')] *)
Definition SEMVER_PATTERN : Re.pattern :=
  [Re.Bol; Re.Opt (Re.lit "v");
   Re.Plus Re.digit; Re.One (Re.lit ".");
   Re.Plus Re.digit; Re.One (Re.lit ".");
   Re.Plus Re.digit].

(** [_determine_pinning_strategy] (lines 179-189) *)
Definition _determine_pinning_strategy (version_ref : string) : pinning :=
  if Re.matches SHA_PATTERN version_ref then Sha
  else if Re.matches SEMVER_PATTERN version_ref then Tag
  else if existsb (String.eqb version_ref) ["main"; "master"; "develop"; "dev"]
       then Branch
  else Tag.

(** [_extract_action_dependency] (lines 87-127).  [parts[0]] and
    [parts[1]] are read with a default: [split_in_range] below shows that
    both indices exist where the code reads them. *)
Definition _extract_action_dependency (uses : pyval) : option WorkflowDependency :=
  if negb (Py.truthy uses) then None
  else match uses with
  | PStr uses =>
      if PyStr.startswith uses "docker://" then
        let container_image := PyStr.drop 9 uses in
        Some {| type := Container;
                name := if PyStr.contains ":" container_image
                        then nth 0 (PyStr.split ":" container_image) ""
                        else container_image;
                version := if PyStr.contains ":" container_image
                           then Some (nth 1 (PyStr.split ":" container_image) "")
                           else None;
                pinning_strategy := if PyStr.contains ":" container_image
                                    then Tag else Unpinned;
                raw_reference := uses |}
      else if PyStr.startswith uses "./" || PyStr.startswith uses "../" then None
      else
        match PyStr.split "@" uses with
        | [action_name; version_ref] =>
            let pinning_strategy := _determine_pinning_strategy version_ref in
            Some {| type := Action;
                    name := action_name;
                    version := Some version_ref;
                    pinning_strategy := pinning_strategy;
                    raw_reference := uses |}
        | _ =>                                    (* len(parts) != 2 *)
            Some {| type := Action;
                    name := uses;
                    version := None;
                    pinning_strategy := Unpinned;
                    raw_reference := uses |}
        end
  | _ => None
  end.

(** [_extract_runner_dependencies] (lines 129-148) *)
Definition is_str (v : pyval) : option string :=
  match v with
  | PStr s => Some s
  | _ => None
  end.

Fixpoint str_elements (l : list pyval) : list string :=
  match l with
  | [] => []
  | r :: rest =>
      match is_str r with
      | Some s => s :: str_elements rest
      | None => str_elements rest
      end
  end.

Definition runner_dependency (runner_label : string) : WorkflowDependency :=
  {| type := Runner;
     name := runner_label;
     version := None;
     pinning_strategy := Unpinned;
     raw_reference := runner_label |}.

Definition _extract_runner_dependencies (runs_on : pyval) : list WorkflowDependency :=
  let runners :=
    match runs_on with
    | PStr s => [s]
    | PList l => str_elements l
    | _ => []
    end in
  map runner_dependency runners.

(** the record both branches of [_extract_container_dependencies] build
    from [image_parts] and the reference they split *)
Definition container_dependency (image_parts : list string) (raw : string)
  : WorkflowDependency :=
  {| type := Container;
     name := nth 0 image_parts "";
     version := if Nat.ltb 1 (List.length image_parts)
                then Some (nth 1 image_parts "") else None;
     pinning_strategy := if Nat.ltb 1 (List.length image_parts)
                         then Tag else Unpinned;
     raw_reference := raw |}.

(** [_extract_container_dependencies] (lines 150-177) *)
Definition _extract_container_dependencies (container : pyval)
  : list WorkflowDependency :=
  match container with
  | PStr container =>
      let image_parts := PyStr.split ":" container in
      [container_dependency image_parts container]
  | PDict container =>
      let image := Py.get container "image" in
      match image with
      | PStr image_s =>
          if Py.truthy image then
            let image_parts := PyStr.split ":" image_s in
            [container_dependency image_parts image_s]
          else []
      | _ => []
      end
  | _ => []
  end.

(** [_dependency_to_dict] (lines 191-199) *)
Definition _dependency_to_dict (dep : WorkflowDependency) : pyval :=
  PDict [ (SStr "type", PStr (type_str (type dep)));
          (SStr "name", PStr (name dep));
          (SStr "version", match version dep with
                           | Some v => PStr v
                           | None => PNone
                           end);
          (SStr "pinning_strategy", PStr (pinning_str (pinning_strategy dep)));
          (SStr "raw_reference", PStr (raw_reference dep)) ].

(** *** [analyze_workflow] (lines 23-85) *)

(** the three accumulators of the call *)
Module Locals.
Record t := mk {
  dependencies : list WorkflowDependency;
  jobs_list : list scalar;
  total_steps : nat
}.
End Locals.

(** the returned dictionary: its four keys *)
Record analysis := mkAnalysis {
  workflow_name : pyval;
  jobs : list scalar;
  total_steps : nat;
  dependencies : list pyval
}.

(** [for step in steps] (lines 70-78) *)
Fixpoint steps_loop (steps : list pyval) (dependencies : list WorkflowDependency)
  : list WorkflowDependency :=
  match steps with
  | [] => dependencies
  | step :: rest =>
      match step with
      | PDict step =>
          let uses := Py.get step "uses" in
          if Py.truthy uses then
            match _extract_action_dependency uses with
            | Some action_dep => steps_loop rest (dependencies ++ [action_dep])
            | None => steps_loop rest dependencies
            end
          else steps_loop rest dependencies
      | _ => steps_loop rest dependencies                      (* continue *)
      end
  end.

(** lines 55-58 *)
Definition runner_block (job_config : pydict) (dependencies : list WorkflowDependency)
  : list WorkflowDependency :=
  let runs_on := Py.get job_config "runs-on" in
  if Py.truthy runs_on
  then dependencies ++ _extract_runner_dependencies runs_on
  else dependencies.

(** lines 61-64 *)
Definition container_block (job_config : pydict) (dependencies : list WorkflowDependency)
  : list WorkflowDependency :=
  let container := Py.get job_config "container" in
  if Py.truthy container
  then dependencies ++ _extract_container_dependencies container
  else dependencies.

(** the body of [for job_name, job_config in jobs.items()] (lines 49-78) *)
Definition job_body (job_name : scalar) (job_config : pyval) (st : Locals.t)
  : outcome Locals.t :=
  match job_config with
  | PDict job_config =>
      let jobs_list := Locals.jobs_list st ++ [job_name] in
      let dependencies := runner_block job_config (Locals.dependencies st) in
      let dependencies := container_block job_config dependencies in
      let steps := Py.get_default job_config "steps" (PList []) in
      match Py.len steps, Py.iter steps with
      | Some n, Some items =>
          Return (Locals.mk (steps_loop items dependencies)
                            jobs_list
                            (Locals.total_steps st + n))
      | _, _ => Raise TypeError
      end
  | _ => Return st                                             (* continue *)
  end.

Fixpoint jobs_loop (items : list (scalar * pyval)) (st : Locals.t)
  : outcome Locals.t :=
  match items with
  | [] => Return st
  | (job_name, job_config) :: rest =>
      st' <- job_body job_name job_config st ;;
      jobs_loop rest st'
  end.

(** lines 38-85: the call once the text is decoded *)
Definition analyze_decoded (workflow : pyval) : outcome analysis :=
  match workflow with
  | PDict workflow =>
      let workflow_name := Py.get workflow "name" in
      let jobs := Py.get_default workflow "jobs" (PDict []) in
      match jobs with
      | PDict jobs =>
          st <- jobs_loop jobs (Locals.mk [] [] 0) ;;
          Return {| workflow_name := workflow_name;
                    jobs := Locals.jobs_list st;
                    total_steps := Locals.total_steps st;
                    dependencies := map _dependency_to_dict (Locals.dependencies st) |}
      | _ => Raise AttributeError
      end
  | _ => Raise (ValueError "Workflow must be a YAML dictionary")
  end.

Section Loader.

(** [yaml.safe_load] *)
Variable safe_load : string -> loaded.

Definition analyze_workflow (workflow_content : string) : outcome analysis :=
  match safe_load workflow_content with
  | YAMLError e => Raise (ValueError ("Invalid YAML: " ++ e))
  | LoaderRaises e => Raise e                 (* not caught by line 35 *)
  | Loaded workflow => analyze_decoded workflow
  end.

End Loader.

End WorkflowAnalyzer.

(** ** The traversal stated declaratively

    What one job contributes, written without accumulators: these are the
    right-hand sides the loops of [analyze_workflow] are compared with. *)

Module Traversal.
Import WorkflowAnalyzer.

(** the labels a [runs-on] value names, in listed order *)
Definition labels (runs_on : pyval) : list string :=
  match runs_on with
  | PStr s => if PyStr.nonempty s then [s] else []
  | PList l => flat_map (fun v => match v with PStr s => [s] | _ => [] end) l
  | _ => []
  end.

Definition runner_records (job_config : pydict) : list WorkflowDependency :=
  map (fun l => mkDep Runner l None Unpinned l) (labels (Py.get job_config "runs-on")).

Definition container_records (job_config : pydict) : list WorkflowDependency :=
  let c := Py.get job_config "container" in
  if Py.truthy c then _extract_container_dependencies c else [].

(** zero or one record per step *)
Definition step_record (step : pyval) : list WorkflowDependency :=
  match step with
  | PDict d =>
      match _extract_action_dependency (Py.get d "uses") with
      | Some dep => [dep]
      | None => []
      end
  | _ => []
  end.

Definition step_values (job_config : pydict) : list pyval :=
  match Py.iter (Py.get_default job_config "steps" (PList [])) with
  | Some items => items
  | None => []
  end.

Definition step_records (job_config : pydict) : list WorkflowDependency :=
  flat_map step_record (step_values job_config).

Definition job_records (entry : scalar * pyval) : list WorkflowDependency :=
  match snd entry with
  | PDict job_config =>
      runner_records job_config ++ container_records job_config
        ++ step_records job_config
  | _ => []
  end.

Definition job_names (js : list (scalar * pyval)) : list scalar :=
  flat_map (fun e => match snd e with PDict _ => [fst e] | _ => [] end) js.

(** what [len(steps)] adds for one job *)
Definition step_count (entry : scalar * pyval) : nat :=
  match snd entry with
  | PDict job_config =>
      match Py.len (Py.get_default job_config "steps" (PList [])) with
      | Some n => n
      | None => 0
      end
  | _ => 0
  end.

(** the job entries on which [len(steps)] does not raise *)
Definition steps_sized (entry : scalar * pyval) : bool :=
  match snd entry with
  | PDict job_config =>
      match Py.len (Py.get_default job_config "steps" (PList [])) with
      | Some _ => true
      | None => false
      end
  | _ => true
  end.



Definition not_runner (d : WorkflowDependency) : bool :=
  match type d with
  | Runner => false
  | _ => true
  end.

End Traversal.

(** ** Decoded documents of [tests/test_analyzer.py] *)

Module Examples.
Import WorkflowAnalyzer.

Definition uses_step (reference : string) : pyval :=
  PDict [(SStr "uses", PStr reference)].

(** the workflow of [test_analyze_simple_workflow], decoded; YAML 1.1
    reads the key [on] as [True] *)
Definition simple_jobs : pydict :=
  [ (SStr "test",
     PDict [ (SStr "runs-on", PStr "ubuntu-latest");
             (SStr "steps",
              PList [ uses_step "actions/checkout@v3";
                      uses_step "actions/setup-node@v3" ]) ]) ].

Definition simple_mapping : pydict :=
  [ (SStr "name", PStr "CI");
    (SBool true, PStr "push");
    (SStr "jobs", PDict simple_jobs) ].

Definition simple_workflow : pyval := PDict simple_mapping.

(** the job [lint] of [test_complex_workflow] *)
Definition lint_jobs : pydict :=
  [ (SStr "lint",
     PDict [ (SStr "runs-on", PList [PStr "ubuntu-latest"; PStr "self-hosted"]);
             (SStr "steps", PList [ uses_step "actions/checkout@main" ]) ]) ].

Definition lint_analysis : analysis :=
  {| workflow_name := PNone;
     jobs := [SStr "lint"];
     total_steps := 1;
     dependencies :=
       map _dependency_to_dict
         [ mkDep Runner "ubuntu-latest" None Unpinned "ubuntu-latest";
           mkDep Runner "self-hosted" None Unpinned "self-hosted";
           mkDep Action "actions/checkout" (Some "main"%string) Branch
                 "actions/checkout@main" ] |}.

(** the simple workflow with a job that is no mapping before [test] *)
Definition simple_mapping_with_todo : pydict :=
  [ (SStr "name", PStr "CI");
    (SBool true, PStr "push");
    (SStr "jobs", PDict ((SStr "docs", PStr "todo") :: simple_jobs)) ].

(** an event whose [Records] is a number *)
Definition unsized_records : pydict := [ (SStr "Records", PInt 5) ].

Definition simple_analysis : analysis :=
  {| workflow_name := PStr "CI";
     jobs := [SStr "test"];
     total_steps := 2;
     dependencies :=
       map _dependency_to_dict
         [ mkDep Runner "ubuntu-latest" None Unpinned "ubuntu-latest";
           mkDep Action "actions/checkout" (Some "v3"%string) Tag
                 "actions/checkout@v3";
           mkDep Action "actions/setup-node" (Some "v3"%string) Tag
                 "actions/setup-node@v3" ] |}.

(** stand-ins for the world of the handler: a decoder that knows one
    envelope and one message, a renderer, a fetch and a clock *)
Definition message : pydict :=
  [ (SStr "repository",
     PDict [ (SStr "owner", PStr "octo"); (SStr "name", PStr "demo");
             (SStr "fullName", PStr "octo/demo") ]);
    (SStr "workflow",
     PDict [ (SStr "path", PStr ".github/workflows/ci.yml");
             (SStr "ref", PStr "refs/heads/main") ]);
    (SStr "commit",
     PDict [ (SStr "sha", PStr "2541b1294d2704b0964813337f33b291d3f8596b");
             (SStr "message", PStr "update"); (SStr "author", PStr "octo") ]);
    (SStr "eventType", PStr "push");
    (SStr "timestamp", PStr "2024-01-01T00:00:00Z") ].

Definition envelope : pydict :=
  [ (SStr "Type", PStr "Notification"); (SStr "Message", PStr "inner") ].

Definition toy_loads (text : pyval) : outcome pyval :=
  match text with
  | PStr "wrapped" => Return (PDict envelope)
  | PStr "inner" => Return (PDict message)
  | PStr "direct" => Return (PDict message)
  | PStr _ => Raise (ValueError "Expecting value")
  | _ => Raise TypeError
  end.

Definition toy_dumps (v : pyval) : outcome string := Return "{}"%string.

Definition toy_fetch (token : string) (owner repo path ref : pyval)
  : outcome string := Return "name: CI"%string.

Definition toy_clock (index : nat) : string := "2024-01-01T00:00:00".

Definition toy_load (text : string) : loaded := Loaded simple_workflow.

Definition two_records : pydict :=
  [ (SStr "Records",
     PList [ PDict [(SStr "body", PStr "wrapped")]; PDict [] ]) ].

End Examples.

(** ** [handler.py]

    The handler reads the process environment, the network, the clock and
    two functions of the [json] module; they enter as section variables.
    What [print] writes is not modelled, only the evaluation of its
    argument. *)

Module Handler.
Import WorkflowAnalyzer.

(** [obj[key]] for a string key *)
Definition subscript (obj : pyval) (key : string) : outcome pyval :=
  match obj with
  | PDict d =>
      match Py.lookup d key with
      | Some v => Return v
      | None => Raise (KeyError key)
      end
  | _ => Raise TypeError
  end.

(** [key in obj] for a string key *)
Definition contains_key (key : string) (obj : pyval) : outcome bool :=
  match obj with
  | PDict d =>
      Return (match Py.lookup d key with Some _ => true | None => false end)
  | PList l | PTuple l =>
      Return (existsb (fun v => match v with
                                | PStr s => String.eqb s key
                                | _ => false
                                end) l)
  | PSet l => Return (existsb (Py.key_is key) l)
  | PScalar (SStr s) => Return (PyStr.has_substring key s)
  | PScalar _ => Raise TypeError
  end.

(** the dictionary [analyze_workflow] returns, as a value *)
Definition analysis_dict (r : analysis) : pyval :=
  PDict [ (SStr "workflow_name", workflow_name r);
          (SStr "jobs", PList (map PScalar (jobs r)));
          (SStr "total_steps", PInt (Z.of_nat (total_steps r)));
          (SStr "dependencies", PList (dependencies r)) ].

(** the [result] dictionary of lines 126-137 *)
Definition result_dict (workflow_event : WorkflowEvent) (analysis_result : analysis)
    (analyzed_at : string) : pyval :=
  PDict [ (SStr "event",
           PDict [ (SStr "repository", repository_full_name workflow_event);
                   (SStr "workflow_path", workflow_path workflow_event);
                   (SStr "commit_sha", commit_sha workflow_event);
                   (SStr "commit_author", commit_author workflow_event);
                   (SStr "event_type", event_type workflow_event);
                   (SStr "timestamp", timestamp workflow_event) ]);
          (SStr "analysis", analysis_dict analysis_result);
          (SStr "analyzed_at", PStr analyzed_at) ].

(** the dictionary of the response body (lines 152-155) *)
Definition counts_dict (processed_count failed_count : nat) : pyval :=
  PDict [ (SStr "processed", PInt (Z.of_nat processed_count));
          (SStr "failed", PInt (Z.of_nat failed_count)) ].

Record response := mkResponse {
  statusCode : Z;
  body : string
}.

Section World.

(** [yaml.safe_load] *)
Variable safe_load : string -> loaded.
(** [json.loads] and [json.dumps] *)
Variable json_loads : pyval -> outcome pyval.
Variable json_dumps : pyval -> outcome string.
(** [os.environ.get('GITHUB_TOKEN')] *)
Variable GITHUB_TOKEN : option string.
(** [GitHubClient(token).get_workflow_content(owner, repo, path, ref)]:
    the request and the decoding of its answer *)
Variable get_workflow_content :
  string -> pyval -> pyval -> pyval -> pyval -> outcome string.
(** [datetime.utcnow().isoformat()] while the record of that index is
    processed *)
Variable utcnow_isoformat : nat -> string.

(** [parse_sqs_event] (lines 58-80) *)
Definition parse_sqs_event (record : pyval) : outcome WorkflowEvent :=
  raw <- subscript record "body" ;;
  body <- json_loads raw ;;
  wrapped <- contains_key "Message" body ;;
  message <- (if wrapped : bool
              then (inner <- subscript body "Message" ;; json_loads inner)
              else Return body) ;;
  repository <- subscript message "repository" ;;
  owner <- subscript repository "owner" ;;
  repository <- subscript message "repository" ;;
  name <- subscript repository "name" ;;
  repository <- subscript message "repository" ;;
  full_name <- subscript repository "fullName" ;;
  workflow <- subscript message "workflow" ;;
  path <- subscript workflow "path" ;;
  workflow <- subscript message "workflow" ;;
  ref <- subscript workflow "ref" ;;
  commit <- subscript message "commit" ;;
  sha <- subscript commit "sha" ;;
  commit <- subscript message "commit" ;;
  commit_msg <- subscript commit "message" ;;
  commit <- subscript message "commit" ;;
  author <- subscript commit "author" ;;
  event_type <- subscript message "eventType" ;;
  timestamp <- subscript message "timestamp" ;;
  Return {| repository_owner := owner;
            repository_name := name;
            repository_full_name := full_name;
            workflow_path := path;
            workflow_ref := ref;
            commit_sha := sha;
            commit_message := commit_msg;
            commit_author := author;
            event_type := event_type;
            timestamp := timestamp |}.

(** the body of [try:] (lines 109-142) for the record of index [index] *)
Definition process_record (token : string) (index : nat) (record : pyval)
  : outcome unit :=
  workflow_event <- parse_sqs_event record ;;
  workflow_content <-
    get_workflow_content token
      (repository_owner workflow_event)
      (repository_name workflow_event)
      (workflow_path workflow_event)
      (commit_sha workflow_event) ;;
  analysis_result <- analyze_workflow safe_load workflow_content ;;
  _ <- json_dumps (result_dict workflow_event analysis_result
                               (utcnow_isoformat index)) ;;
  Return tt.

(** [for record in event.get('Records', [])] with its [try]/[except
    Exception] (lines 107-148) *)
Fixpoint records_loop (token : string) (records : list pyval) (index : nat)
    (processed_count failed_count : nat) : nat * nat :=
  match records with
  | [] => (processed_count, failed_count)
  | record :: rest =>
      match process_record token index record with
      | Return _ =>
          records_loop token rest (S index) (S processed_count) failed_count
      | Raise _ =>
          records_loop token rest (S index) processed_count (S failed_count)
      end
  end.

(** [lambda_handler] (lines 83-156) *)
Definition lambda_handler (event : pydict) : outcome response :=
  let records := Py.get_default event "Records" (PList []) in
  match Py.len records, Py.iter records with
  | Some _, Some items =>
      match GITHUB_TOKEN with
      | Some github_token =>
          if PyStr.nonempty github_token then
            let (processed_count, failed_count) :=
              records_loop github_token items 0 0 0 in
            body <- json_dumps (counts_dict processed_count failed_count) ;;
            Return {| statusCode := 200; body := body |}
          else Raise (ValueError "GITHUB_TOKEN environment variable not set")
      | None => Raise (ValueError "GITHUB_TOKEN environment variable not set")
      end
  | _, _ => Raise TypeError
  end.

End World.

End Handler.

(** ** Lemmas on strings *)

Section SplitFacts.
Variable c : ascii.

Lemma split_not_nil (s : string) : PyStr.split c s <> [].
Proof.
  destruct s as [|a r]; simpl; [discriminate|].
  destruct (Ascii.eqb a c); [discriminate|].
  destruct (PyStr.split c r); discriminate.
Qed.

Lemma split_length (s : string) :
  List.length (PyStr.split c s) = S (PyStr.count c s).
Proof.
  induction s as [|a r IH]; simpl; [reflexivity|].
  destruct (Ascii.eqb a c); simpl.
  - now rewrite IH.
  - destruct (PyStr.split c r) eqn:E; simpl in *; [discriminate|assumption].
Qed.

Lemma contains_count (s : string) :
  PyStr.contains c s = negb (Nat.eqb (PyStr.count c s) 0).
Proof.
  induction s as [|a r IH]; simpl; [reflexivity|].
  destruct (Ascii.eqb a c); simpl; [reflexivity|assumption].
Qed.

Lemma split_no_separator (s : string) :
  PyStr.contains c s = false -> PyStr.split c s = [s].
Proof.
  induction s as [|a r IH]; simpl; [reflexivity|].
  destruct (Ascii.eqb a c); simpl; [discriminate|].
  intros H. now rewrite (IH H).
Qed.

Lemma split_at_first (a b : string) :
  PyStr.contains c a = false ->
  PyStr.split c (a ++ String c b)%string = a :: PyStr.split c b.
Proof.
  induction a as [|x r IH]; simpl.
  - intros _. now rewrite Ascii.eqb_refl.
  - destruct (Ascii.eqb x c); simpl; [discriminate|].
    intros H. now rewrite (IH H).
Qed.

Lemma contains_app (a b : string) :
  PyStr.contains c (a ++ b) = PyStr.contains c a || PyStr.contains c b.
Proof.
  induction a as [|x r IH]; simpl; [reflexivity|].
  now rewrite IH, orb_assoc.
Qed.

Lemma count_app (a b : string) :
  PyStr.count c (a ++ b) = PyStr.count c a + PyStr.count c b.
Proof.
  induction a as [|x r IH]; simpl; [reflexivity|].
  rewrite IH. lia.
Qed.

(** a string with a separator splits at the first one *)
Lemma contains_decompose (s : string) :
  PyStr.contains c s = true ->
  exists a b, s = (a ++ String c b)%string /\ PyStr.contains c a = false.
Proof.
  induction s as [|x r IH]; simpl; [discriminate|].
  destruct (Ascii.eqb x c) eqn:E; simpl.
  - intros _. apply Ascii.eqb_eq in E. subst x.
    exists ""%string, r. split; reflexivity.
  - intros H. destruct (IH H) as (a & b & -> & Ha).
    exists (String x a), b. simpl. rewrite E. split; [reflexivity|assumption].
Qed.

(** where the code reads [parts[0]] and [parts[1]] both exist *)
Lemma split_in_range (s : string) :
  0 < List.length (PyStr.split c s) /\
  (PyStr.contains c s = true -> 1 < List.length (PyStr.split c s)).
Proof.
  rewrite split_length, contains_count. split; [lia|].
  destruct (PyStr.count c s); simpl; [discriminate|lia].
Qed.

End SplitFacts.

Lemma startswith_app (p s : string) : PyStr.startswith (p ++ s)%string p = true.
Proof.
  unfold PyStr.startswith.
  induction p as [|a r IH]; simpl; [now destruct s|].
  destruct (ascii_dec a a); [assumption|congruence].
Qed.

Lemma drop_app (p s : string) : PyStr.drop (String.length p) (p ++ s)%string = s.
Proof. induction p as [|a r IH]; simpl; [reflexivity|assumption]. Qed.

Lemma nonempty_true (s : string) : PyStr.nonempty s = true <-> s <> ""%string.
Proof. destruct s; simpl; split; congruence. Qed.

(** ** The loops and their closed forms *)

Section LoopFacts.
Import WorkflowAnalyzer.

Lemma chars_length (s : string) : List.length (PyStr.chars s) = String.length s.
Proof. induction s as [|a r IH]; simpl; [reflexivity|now rewrite IH]. Qed.

(** whatever has a length can be iterated, and yields that many items *)
Lemma len_iter (v : pyval) (n : nat) :
  Py.len v = Some n ->
  exists items, Py.iter v = Some items /\ List.length items = n.
Proof.
  destruct v as [a|l|d|l|l]; simpl.
  - destruct a; try discriminate; intros [= <-];
      eexists; (split; [reflexivity|]);
      now rewrite length_map, chars_length.
  - intros [= <-]. now exists l.
  - intros [= <-]. eexists. split; [reflexivity|]. now rewrite length_map.
  - intros [= <-]. eexists. split; [reflexivity|]. now rewrite length_map.
  - intros [= <-]. now exists l.
Qed.

Lemma not_truthy_no_action (uses : pyval) :
  Py.truthy uses = false -> _extract_action_dependency uses = None.
Proof. unfold _extract_action_dependency. now intros ->. Qed.

Lemma steps_loop_closed (items : list pyval) :
  forall deps,
    steps_loop items deps = deps ++ flat_map Traversal.step_record items.
Proof.
  induction items as [|step rest IH]; intros deps; simpl.
  - now rewrite app_nil_r.
  - destruct step as [a|l|d|l|l]; simpl; try apply IH.
    destruct (Py.truthy (Py.get d "uses")) eqn:T.
    + destruct (_extract_action_dependency (Py.get d "uses")); simpl.
      * now rewrite IH, <- app_assoc.
      * apply IH.
    + rewrite (not_truthy_no_action _ T). apply IH.
Qed.

Lemma str_elements_flat_map (l : list pyval) :
  str_elements l = flat_map (fun v => match v with PStr s => [s] | _ => [] end) l.
Proof.
  induction l as [|v rest IH]; simpl; [reflexivity|].
  destruct v as [a| | | |]; simpl; try assumption.
  destruct a; simpl; try assumption. now rewrite IH.
Qed.

Lemma runner_block_closed (cfg : pydict) (deps : list WorkflowDependency) :
  runner_block cfg deps = deps ++ Traversal.runner_records cfg.
Proof.
  unfold runner_block, Traversal.runner_records, _extract_runner_dependencies.
  destruct (Py.get cfg "runs-on") as [a|l|d|l|l]; simpl.
  - destruct a as [|b|z|nz|s|iso|b]; simpl.
    + now rewrite app_nil_r.
    + destruct b; now rewrite app_nil_r.
    + destruct (negb (Z.eqb z 0)); now rewrite app_nil_r.
    + destruct nz; now rewrite app_nil_r.
    + destruct s; simpl; [now rewrite app_nil_r|reflexivity].
    + now rewrite app_nil_r.
    + destruct (PyStr.nonempty b); now rewrite app_nil_r.
  - rewrite <- str_elements_flat_map.
    destruct l; [now rewrite app_nil_r|reflexivity].
  - destruct d; now rewrite app_nil_r.
  - destruct l; now rewrite app_nil_r.
  - destruct l; now rewrite app_nil_r.
Qed.

Lemma container_block_closed (cfg : pydict) (deps : list WorkflowDependency) :
  container_block cfg deps = deps ++ Traversal.container_records cfg.
Proof.
  unfold container_block, Traversal.container_records.
  destruct (Py.truthy (Py.get cfg "container")); [reflexivity|now rewrite app_nil_r].
Qed.

(** one pass of the job loop over a mapping job *)
Lemma job_body_mapping (job_name : scalar) (cfg : pydict) (st : Locals.t) :
  job_body job_name (PDict cfg) st =
  match Py.len (Py.get_default cfg "steps" (PList [])) with
  | Some n =>
      Return (Locals.mk
                (Locals.dependencies st ++ Traversal.job_records (job_name, PDict cfg))
                (Locals.jobs_list st ++ [job_name])
                (Locals.total_steps st + n))
  | None => Raise TypeError
  end.
Proof.
  unfold job_body, Traversal.job_records, Traversal.step_records,
    Traversal.step_values. simpl.
  destruct (Py.len (Py.get_default cfg "steps" (PList []))) as [n|] eqn:L.
  - destruct (len_iter _ L) as (items & -> & _).
    rewrite steps_loop_closed, container_block_closed, runner_block_closed.
    now rewrite <- !app_assoc.
  - reflexivity.
Qed.

Lemma jobs_loop_closed (js : list (scalar * pyval)) :
  forall st st',
    jobs_loop js st = Return st' ->
    Locals.dependencies st' =
      Locals.dependencies st ++ flat_map Traversal.job_records js
    /\ Locals.jobs_list st' = Locals.jobs_list st ++ Traversal.job_names js
    /\ Locals.total_steps st' =
         Locals.total_steps st + list_sum (map Traversal.step_count js).
Proof.
  induction js as [|[job_name job_config] rest IH]; intros st st'; simpl.
  - intros [= <-]. rewrite !app_nil_r. repeat split; lia.
  - destruct job_config as [a|l|cfg|l|l];
      try (simpl; intros H; apply IH in H; exact H).
    rewrite job_body_mapping.
    unfold Traversal.job_names, Traversal.step_count at 1. simpl.
    destruct (Py.len (Py.get_default cfg "steps" (PList []))) as [n|];
      simpl; [|discriminate].
    intros H. apply IH in H. simpl in H.
    destruct H as (Hd & Hj & Ht).
    rewrite Hd, Hj, Ht, <- !app_assoc. simpl. repeat split; lia.
Qed.

(** the job loop returns exactly when every mapping job has a [steps]
    value with a length *)
Lemma jobs_loop_returns (js : list (scalar * pyval)) :
  forall st,
    (exists st', jobs_loop js st = Return st')
    <-> forallb Traversal.steps_sized js = true.
Proof.
  induction js as [|[job_name job_config] rest IH]; intros st; simpl.
  - split; [reflexivity|]. intros _. now exists st.
  - destruct job_config as [a|l|cfg|l|l];
      try (simpl; unfold Traversal.steps_sized at 1; simpl; apply IH).
    rewrite job_body_mapping. unfold Traversal.steps_sized at 1. simpl.
    destruct (Py.len (Py.get_default cfg "steps" (PList []))) as [n|]; simpl.
    + apply IH.
    + split; [intros [st' H]; discriminate|discriminate].
Qed.

Lemma jobs_loop_raises (js : list (scalar * pyval)) :
  forall st e,
    jobs_loop js st = Raise e -> e = TypeError.
Proof.
  induction js as [|[job_name job_config] rest IH]; intros st e; simpl.
  - discriminate.
  - destruct job_config as [a|l|cfg|l|l]; try (simpl; apply IH).
    rewrite job_body_mapping.
    destruct (Py.len (Py.get_default cfg "steps" (PList []))) as [n|]; simpl.
    + apply IH.
    + now intros [= <-].
Qed.

End LoopFacts.

(** ** The two patterns *)

Section PatternFacts.
Import WorkflowAnalyzer.

(** [{n}] consumes exactly [n] characters of the class *)
Lemma run_rep (p : ascii -> bool) (rest : Re.pattern) (n : nat) :
  forall pos s,
    Re.run (Re.Rep n p :: rest) pos s = true <->
    exists h t, s = (h ++ t)%string /\ String.length h = n
                /\ PyStr.all p h = true /\ Re.run rest (n + pos) t = true.
Proof.
  induction n as [|m IH]; intros pos s.
  - simpl. split.
    + intros H. exists ""%string, s. now repeat split.
    + intros (h & t & -> & Hl & _ & H). now destruct h.
  - change (Re.run (Re.Rep (S m) p :: rest) pos s)
      with (match s with
            | String a r => p a && Re.run (Re.Rep m p :: rest) (S pos) r
            | EmptyString => false
            end).
    destruct s as [|a r].
    + split; [discriminate|]. intros (h & t & E & Hl & _). now destruct h.
    + rewrite andb_true_iff, IH. split.
      * intros (Ha & h & t & -> & Hl & Hp & H).
        exists (String a h), t. simpl. rewrite Ha, Hp, Hl.
        repeat split. now rewrite <- Nat.add_succ_r.
      * intros (h & t & E & Hl & Hp & H).
        destruct h as [|b h]; [discriminate|].
        simpl in E, Hl, Hp. injection E as <- ->. injection Hl as Hl.
        apply andb_true_iff in Hp as [Ha Hp].
        split; [assumption|]. exists h, t.
        repeat split; try assumption. now rewrite Nat.add_succ_r.
Qed.

Lemma at_eol_iff (t : string) :
  Re.at_eol t = true <-> t = ""%string \/ t = String Re.newline "".
Proof.
  destruct t as [|a [|b r]]; simpl.
  - split; [now left|reflexivity].
  - rewrite Ascii.eqb_eq. split.
    + intros ->. now right.
    + intros [H|H]; [discriminate|now injection H].
  - split; [discriminate|]. intros [H|H]; discriminate.
Qed.

(** what [SHA_PATTERN.match] accepts: forty lowercase hexadecimal
    characters, then the end of the string or one final newline *)
Lemma sha_pattern_matches (s : string) :
  Re.matches SHA_PATTERN s = true <->
  exists h, String.length h = 40 /\ PyStr.all Re.lower_hex h = true
            /\ (s = h \/ s = (h ++ String Re.newline "")%string).
Proof.
  unfold Re.matches, SHA_PATTERN.
  change (Re.run [Re.Bol; Re.Rep 40 Re.lower_hex; Re.Eol] 0 s)
    with (Re.run [Re.Rep 40 Re.lower_hex; Re.Eol] 0 s).
  rewrite run_rep. split.
  - intros (h & t & -> & Hl & Hp & H). exists h.
    simpl in H. rewrite andb_true_r in H. apply at_eol_iff in H.
    repeat split; try assumption.
    destruct H as [-> | ->]; [left|right; reflexivity].
    clear. induction h; simpl; congruence.
  - intros (h & Hl & Hp & H). exists h.
    destruct H as [-> | ->].
    + exists ""%string. repeat split; try assumption.
      clear. induction h; simpl; congruence.
    + exists (String Re.newline ""). now repeat split.
Qed.

(** the four branch names do not look like a version number *)
Lemma branch_names_not_semver (s : string) :
  existsb (String.eqb s) ["main"; "master"; "develop"; "dev"]%string = true ->
  Re.matches SEMVER_PATTERN s = false.
Proof.
  simpl. rewrite !orb_true_iff, !String.eqb_eq.
  intros [->|[->|[->|[->|H]]]]; try reflexivity. discriminate.
Qed.

End PatternFacts.

(** ** Reference parsing *)

Section References.
Import WorkflowAnalyzer.

Lemma startswith_decompose (s p : string) :
  PyStr.startswith s p = true ->
  s = (p ++ PyStr.drop (String.length p) s)%string.
Proof.
  unfold PyStr.startswith. revert s.
  induction p as [|a p IH]; intros s; simpl; [reflexivity|].
  destruct s as [|b s]; simpl; [discriminate|].
  destruct (ascii_dec a b) as [<-|]; [|discriminate].
  intros H. now rewrite <- (IH s H).
Qed.

(** a non-empty string whose first piece is empty starts with the
    separator *)
Lemma split_head_empty (c : ascii) (s : string) :
  s <> ""%string -> nth 0 (PyStr.split c s) ""%string = ""%string ->
  exists r, s = String c r.
Proof.
  destruct s as [|a r]; [congruence|]. intros _. simpl.
  destruct (Ascii.eqb a c) eqn:E.
  - apply Ascii.eqb_eq in E. subst a. now exists r.
  - destruct (PyStr.split c r); simpl; discriminate.
Qed.

(** the three shapes of [uses.split('@')] *)
Lemma split_shape (c : ascii) (s : string) :
  match PyStr.split c s with
  | [_] => PyStr.count c s = 0
  | [_; _] => PyStr.count c s = 1
  | _ => 1 < PyStr.count c s
  end.
Proof.
  pose proof (split_length c s) as H. pose proof (split_not_nil c s) as N.
  destruct (PyStr.split c s) as [|x [|y [|z l]]]; simpl in H;
    [congruence|lia..].
Qed.

Lemma docker_reference (image : string) :
  _extract_action_dependency (PStr ("docker://" ++ image)) =
  Some {| type := Container;
          name := if PyStr.contains ":" image
                  then nth 0 (PyStr.split ":" image) ""%string else image;
          version := if PyStr.contains ":" image
                     then Some (nth 1 (PyStr.split ":" image) ""%string)
                     else None;
          pinning_strategy := if PyStr.contains ":" image then Tag else Unpinned;
          raw_reference := ("docker://" ++ image)%string |}.
Proof.
  unfold _extract_action_dependency.
  change (Py.truthy (PStr ("docker://" ++ image))) with true.
  cbv iota beta delta [negb].
  rewrite (startswith_app "docker://" image).
  change 9 with (String.length "docker://").
  now rewrite drop_app.
Qed.

Lemma mapping_image_reference (d : pydict) (image : string) :
  Py.lookup d "image" = Some (PStr image) -> image <> ""%string ->
  _extract_container_dependencies (PDict d) =
  _extract_container_dependencies (PStr image).
Proof.
  intros L N. unfold _extract_container_dependencies, Py.get, Py.get_default.
  rewrite L. simpl. destruct image; [congruence|reflexivity].
Qed.

End References.

(** ** What the three producers build *)

Section Producers.
Import WorkflowAnalyzer.

(** the shapes a record built by [_extract_action_dependency] can have *)
Lemma action_dependency_cases (v : pyval) (d : WorkflowDependency) :
  _extract_action_dependency v = Some d ->
  exists uses, v = PStr uses /\ uses <> ""%string /\
    ((exists image, uses = ("docker://" ++ image)%string /\
        d = mkDep Container
              (if PyStr.contains ":" image
               then nth 0 (PyStr.split ":" image) ""%string else image)
              (if PyStr.contains ":" image
               then Some (nth 1 (PyStr.split ":" image) ""%string) else None)
              (if PyStr.contains ":" image then Tag else Unpinned)
              uses)
     \/ (exists action_name version_ref,
           PyStr.split "@" uses = [action_name; version_ref] /\
           d = mkDep Action action_name (Some version_ref)
                 (_determine_pinning_strategy version_ref) uses)
     \/ d = mkDep Action uses None Unpinned uses).
Proof.
  unfold _extract_action_dependency.
  destruct (Py.truthy v) eqn:T; simpl; [|discriminate].
  destruct v as [a| | | |]; try discriminate.
  destruct a as [| | | |uses| |]; try discriminate.
  intros H. exists uses. split; [reflexivity|].
  split; [now apply nonempty_true|].
  destruct (PyStr.startswith uses "docker://") eqn:D.
  - left. exists (PyStr.drop 9 uses). split.
    + exact (startswith_decompose _ _ D).
    + now injection H as <-.
  - destruct (PyStr.startswith uses "./" || PyStr.startswith uses "../");
      [discriminate|].
    right.
    destruct (PyStr.split "@" uses) as [|x [|y [|z l]]];
      injection H as <-; try (now right).
    left. now exists x, y.
Qed.

(** the records [_extract_container_dependencies] builds for a value that
    passed the guard [if container:] *)
Lemma container_dependencies_cases (v : pyval) :
  Py.truthy v = true ->
  Forall (fun d => exists ref, ref <> ""%string /\
                     d = container_dependency (PyStr.split ":" ref) ref)
         (_extract_container_dependencies v).
Proof.
  intros T. destruct v as [a|l|c|l|l]; simpl; try constructor.
  - destruct a as [| | | |ref| |]; try constructor; [|constructor].
    exists ref. split; [now apply nonempty_true|reflexivity].
  - destruct (Py.get c "image") as [a| | | |]; try constructor.
    destruct a as [| | | |ref| |]; try constructor.
    simpl. destruct (PyStr.nonempty ref) eqn:N; constructor; [|constructor].
    exists ref. split; [now apply nonempty_true|reflexivity].
Qed.

Lemma container_dependencies_at_most_one (v : pyval) :
  List.length (_extract_container_dependencies v) <= 1.
Proof.
  destruct v as [a|l|c|l|l]; simpl; try lia.
  - destruct a; simpl; lia.
  - destruct (Py.get c "image") as [a| | | |]; simpl; try lia.
    destruct a; simpl; try lia.
    destruct (PyStr.nonempty s); simpl; lia.
Qed.

(** an invariant of all three producers holds of everything a job adds *)
Lemma job_records_Forall (P : WorkflowDependency -> Prop) :
  (forall label, P (mkDep Runner label None Unpinned label)) ->
  (forall ref, ref <> ""%string ->
               P (container_dependency (PyStr.split ":" ref) ref)) ->
  (forall v d, _extract_action_dependency v = Some d -> P d) ->
  forall entry, Forall P (Traversal.job_records entry).
Proof.
  intros HR HC HA [job_name job_config].
  unfold Traversal.job_records. simpl.
  destruct job_config as [a|l|cfg|l|l]; try constructor.
  rewrite !Forall_app. repeat split.
  - unfold Traversal.runner_records. apply Forall_map, Forall_forall.
    intros label _. apply HR.
  - unfold Traversal.container_records.
    destruct (Py.truthy (Py.get cfg "container")) eqn:T; [|constructor].
    eapply Forall_impl; [|exact (container_dependencies_cases _ T)].
    intros d (ref & N & ->). now apply HC.
  - unfold Traversal.step_records. apply Forall_flat_map, Forall_forall.
    intros step _. unfold Traversal.step_record.
    destruct step as [a|l|d|l|l]; try constructor.
    destruct (_extract_action_dependency (Py.get d "uses")) eqn:E;
      constructor; [|constructor].
    exact (HA _ _ E).
Qed.

(** a returned analysis lists the records of its jobs, job by job *)
Lemma analyze_decoded_closed (workflow : pyval) (r : analysis) :
  analyze_decoded workflow = Return r ->
  exists w js,
    workflow = PDict w
    /\ Py.get_default w "jobs" (PDict []) = PDict js
    /\ workflow_name r = Py.get w "name"
    /\ jobs r = Traversal.job_names js
    /\ total_steps r = list_sum (map Traversal.step_count js)
    /\ dependencies r
       = map _dependency_to_dict (flat_map Traversal.job_records js).
Proof.
  unfold analyze_decoded.
  destruct workflow as [a|l|w|l|l]; try discriminate.
  destruct (Py.get_default w "jobs" (PDict [])) as [a|l|js|l|l] eqn:J;
    try discriminate.
  destruct (jobs_loop js (Locals.mk [] [] 0)) as [st|e] eqn:L;
    simpl; [|discriminate].
  intros [= <-]. exists w, js. simpl.
  destruct (jobs_loop_closed _ _ L) as (Hd & Hj & Ht). simpl in *.
  rewrite Hd, Hj, Ht. now repeat split.
Qed.

Lemma container_records_Forall (P : WorkflowDependency -> Prop) :
  (forall ref, ref <> ""%string ->
               P (container_dependency (PyStr.split ":" ref) ref)) ->
  forall cfg, Forall P (Traversal.container_records cfg).
Proof.
  intros HC cfg. unfold Traversal.container_records.
  destruct (Py.truthy (Py.get cfg "container")) eqn:T; [|constructor].
  eapply Forall_impl; [|exact (container_dependencies_cases _ T)].
  intros d (ref & N & ->). now apply HC.
Qed.

Lemma step_records_Forall (P : WorkflowDependency -> Prop) :
  (forall v d, _extract_action_dependency v = Some d -> P d) ->
  forall cfg, Forall P (Traversal.step_records cfg).
Proof.
  intros HA cfg. unfold Traversal.step_records.
  apply Forall_flat_map, Forall_forall.
  intros step _. unfold Traversal.step_record.
  destruct step as [a|l|d|l|l]; try constructor.
  destruct (_extract_action_dependency (Py.get d "uses")) eqn:E;
    constructor; [|constructor].
  exact (HA _ _ E).
Qed.

(** after the runner labels, a job adds containers and actions only *)
Lemma later_records_not_runner (cfg : pydict) :
  Forall (fun d => type d <> Runner)
         (Traversal.container_records cfg ++ Traversal.step_records cfg).
Proof.
  apply Forall_app. split.
  - apply container_records_Forall. intros ref _. discriminate.
  - apply step_records_Forall. intros v d H.
    destruct (action_dependency_cases _ H)
      as (uses & _ & _ & [(image & _ & ->)|[(a & b & _ & ->)| ->]]);
      discriminate.
Qed.

Lemma startswith_first (c : ascii) (r : string) :
  PyStr.startswith (String c r) (String c "") = true.
Proof.
  unfold PyStr.startswith. simpl.
  destruct (ascii_dec c c); [now destruct r|congruence].
Qed.

Lemma pinning_never_unpinned (version_ref : string) :
  _determine_pinning_strategy version_ref <> Unpinned.
Proof.
  unfold _determine_pinning_strategy.
  destruct (Re.matches SHA_PATTERN version_ref); [discriminate|].
  destruct (Re.matches SEMVER_PATTERN version_ref); [discriminate|].
  destruct (existsb _ _); discriminate.
Qed.

End Producers.

(** ** The properties of the specification *)

Section Specification.
Import WorkflowAnalyzer.

(** C7.  A non-empty [uses] string that starts with none of [docker://],
    [./], [../]: without [@] it is an unpinned action named by the whole
    string; with exactly one [@] the name is the part before it, the
    version the part after it and the pinning what
    [_determine_pinning_strategy] says of that version; with more than one
    [@] it is again an unpinned action named by the whole string. *)
Theorem action_reference_by_at_count (uses : string) :
  uses <> ""%string ->
  PyStr.startswith uses "docker://" = false ->
  PyStr.startswith uses "./" = false ->
  PyStr.startswith uses "../" = false ->
  (PyStr.count "@" uses = 0 ->
   _extract_action_dependency (PStr uses)
   = Some (mkDep Action uses None Unpinned uses))
  /\ (PyStr.count "@" uses = 1 ->
      forall before after, uses = (before ++ "@" ++ after)%string ->
      _extract_action_dependency (PStr uses)
      = Some (mkDep Action before (Some after)
                    (_determine_pinning_strategy after) uses))
  /\ (1 < PyStr.count "@" uses ->
      _extract_action_dependency (PStr uses)
      = Some (mkDep Action uses None Unpinned uses)).
Proof.
  intros N D L1 L2.
  assert (E : _extract_action_dependency (PStr uses) =
              match PyStr.split "@" uses with
              | [action_name; version_ref] =>
                  Some (mkDep Action action_name (Some version_ref)
                              (_determine_pinning_strategy version_ref) uses)
              | _ => Some (mkDep Action uses None Unpinned uses)
              end).
  { unfold _extract_action_dependency. simpl Py.truthy.
    apply nonempty_true in N. rewrite N, D, L1, L2. reflexivity. }
  rewrite E. pose proof (split_shape "@" uses) as S.
  split; [|split].
  - intros C. destruct (PyStr.split "@" uses) as [|x [|y [|z l]]];
      try reflexivity. lia.
  - intros C before after ->.
    rewrite count_app in C. simpl in C.
    assert (Cb : PyStr.contains "@" before = false)
      by (rewrite contains_count; destruct (PyStr.count "@" before); [reflexivity|lia]).
    assert (Ca : PyStr.contains "@" after = false)
      by (rewrite contains_count; destruct (PyStr.count "@" after); [reflexivity|lia]).
    change (before ++ "@" ++ after)%string
      with (before ++ String "@" after)%string.
    rewrite split_at_first by assumption.
    rewrite (split_no_separator _ _ Ca). reflexivity.
  - intros C. destruct (PyStr.split "@" uses) as [|x [|y [|z l]]];
      try reflexivity. lia.
Qed.

Lemma action_reference_by_at_count_witness :
  PyStr.count "@" "actions/checkout@v3" = 1 /\
  _extract_action_dependency (PStr "actions/checkout@v3")
  = Some (mkDep Action "actions/checkout" (Some "v3"%string) Tag
                "actions/checkout@v3").
Proof.
  split; [reflexivity|].
  destruct (@action_reference_by_at_count "actions/checkout@v3")
    as (_ & H & _); [discriminate|reflexivity|reflexivity|reflexivity|].
  exact (H eq_refl "actions/checkout"%string "v3"%string eq_refl).
Defined.

(** C4, as the code has it.  A container reference (a job's [container]
    string, the [image] string of a container mapping, the rest of a
    [docker://] step reference) is cut at every colon: the name is the text
    before the first colon, the version the text between the first colon
    and the second one (all that follows the first when there is no second),
    the pinning [Tag]; without a colon the name is the whole reference, there
    is no version and the pinning is [Unpinned]. *)
Theorem container_reference_split (ref : string) :
  (forall before between rest,
      ref = (before ++ ":" ++ between ++ rest)%string ->
      PyStr.contains ":" before = false ->
      PyStr.contains ":" between = false ->
      rest = ""%string \/ PyStr.startswith rest ":" = true ->
      _extract_container_dependencies (PStr ref)
      = [mkDep Container before (Some between) Tag ref]
      /\ (forall d, Py.lookup d "image" = Some (PStr ref) ->
                    _extract_container_dependencies (PDict d)
                    = [mkDep Container before (Some between) Tag ref])
      /\ _extract_action_dependency (PStr ("docker://" ++ ref))
         = Some (mkDep Container before (Some between) Tag ("docker://" ++ ref)))
  /\ (PyStr.contains ":" ref = false ->
      _extract_container_dependencies (PStr ref)
      = [mkDep Container ref None Unpinned ref]
      /\ (forall d, Py.lookup d "image" = Some (PStr ref) -> ref <> ""%string ->
                    _extract_container_dependencies (PDict d)
                    = [mkDep Container ref None Unpinned ref])
      /\ _extract_action_dependency (PStr ("docker://" ++ ref))
         = Some (mkDep Container ref None Unpinned ("docker://" ++ ref))).
Proof.
  split.
  - intros before between rest -> Hb Hm Hr.
    set (ref := (before ++ ":" ++ between ++ rest)%string).
    assert (S : exists more, PyStr.split ":" ref = before :: between :: more).
    { unfold ref. change (before ++ ":" ++ between ++ rest)%string
        with (before ++ String ":" (between ++ rest))%string.
      rewrite split_at_first by assumption.
      destruct Hr as [-> | Hr].
      - exists []. f_equal.
        replace (between ++ "")%string with between
          by (clear; induction between; simpl; congruence).
        now apply split_no_separator.
      - apply startswith_decompose in Hr. simpl in Hr. rewrite Hr.
        rewrite split_at_first by assumption. eauto. }
    destruct S as (more & S).
    assert (C : PyStr.contains ":" ref = true).
    { unfold ref. rewrite contains_app. simpl. apply orb_true_r. }
    assert (N : ref <> ""%string) by (intros E; rewrite E in C; discriminate).
    assert (E : _extract_container_dependencies (PStr ref)
                = [mkDep Container before (Some between) Tag ref]).
    { simpl. unfold container_dependency. now rewrite S. }
    split; [exact E|]. split.
    + intros d L. now rewrite (mapping_image_reference _ L N).
    + rewrite docker_reference, C, S. reflexivity.
  - intros C.
    assert (E : _extract_container_dependencies (PStr ref)
                = [mkDep Container ref None Unpinned ref]).
    { simpl. unfold container_dependency.
      now rewrite (split_no_separator _ _ C). }
    split; [exact E|]. split.
    + intros d L N. now rewrite (mapping_image_reference _ L N).
    + now rewrite docker_reference, C.
Qed.

Lemma container_reference_split_witness :
  PyStr.contains ":" "5000/app" = false /\
  _extract_container_dependencies (PStr "registry:5000/app:1.0")
  = [mkDep Container "registry" (Some "5000/app"%string) Tag
           "registry:5000/app:1.0"].
Proof.
  split; [reflexivity|].
  destruct (container_reference_split "registry:5000/app:1.0") as [H _].
  destruct (H "registry"%string "5000/app"%string ":1.0"%string)
    as [E _]; [reflexivity|reflexivity|reflexivity|right; reflexivity|].
  exact E.
Defined.

(** C4, counterexample: the version of [registry:5000/app:1.0] is
    [5000/app], not all that follows the first colon. *)
Lemma container_version_counterexample :
  map version (_extract_container_dependencies (PStr "registry:5000/app:1.0"))
  = [Some "5000/app"%string]
  /\ "5000/app"%string <> "5000/app:1.0"%string.
Proof. split; [reflexivity|discriminate]. Qed.

(** C5, at the failing input: forty lowercase hexadecimal characters
    followed by a newline are 41 characters and are classified [Sha]. *)
Theorem sha_with_trailing_newline :
  let version_ref :=
    ("2541b1294d2704b0964813337f33b291d3f8596b" ++ String Re.newline "")%string in
  String.length version_ref = 41
  /\ _determine_pinning_strategy version_ref = Sha.
Proof. split; reflexivity. Qed.

(** C6, as the code has it.  A job that is a mapping and whose [runs-on]
    is a non-empty string adds exactly one runner record, named by that
    string and unpinned; when [runs-on] is the empty string it adds no
    runner record; when [runs-on] is a sequence it adds one such record per
    string element, in listed order, the other elements being dropped.
    Whatever else the job adds comes after and is no runner. *)
Theorem runner_records_of_job
    (job_name : scalar) (cfg : pydict) (st st' : Locals.t) :
  job_body job_name (PDict cfg) st = Return st' ->
  exists others,
    Forall (fun d => type d <> Runner) others
    /\ (forall s, Py.lookup cfg "runs-on" = Some (PStr s) -> s <> ""%string ->
          Locals.dependencies st'
          = Locals.dependencies st ++ mkDep Runner s None Unpinned s :: others)
    /\ (Py.lookup cfg "runs-on" = Some (PStr "") ->
          Locals.dependencies st' = Locals.dependencies st ++ others)
    /\ (forall l, Py.lookup cfg "runs-on" = Some (PList l) ->
          Locals.dependencies st'
          = Locals.dependencies st
            ++ map (fun s => mkDep Runner s None Unpinned s)
                   (flat_map (fun v => match v with PStr s => [s] | _ => [] end) l)
            ++ others).
Proof.
  rewrite job_body_mapping.
  destruct (Py.len (Py.get_default cfg "steps" (PList []))); [|discriminate].
  intros [= <-]. simpl.
  exists (Traversal.container_records cfg ++ Traversal.step_records cfg).
  split; [apply later_records_not_runner|].
  unfold Traversal.job_records, Traversal.runner_records, Py.get, Py.get_default.
  simpl. split; [|split].
  - intros s -> N. simpl. apply nonempty_true in N. now rewrite N.
  - intros ->. reflexivity.
  - intros l ->. reflexivity.
Qed.

Lemma runner_records_of_job_witness :
  (exists others,
     Forall (fun d => type d <> Runner) others /\
     Locals.dependencies
       (Locals.mk
          [mkDep Runner "ubuntu-latest" None Unpinned "ubuntu-latest";
           mkDep Container "node" (Some "18"%string) Tag "node:18"]
          [SStr "build"] 0)
     = [] ++ mkDep Runner "ubuntu-latest" None Unpinned "ubuntu-latest" :: others)
  /\ (exists others,
        Forall (fun d => type d <> Runner) others /\
        Locals.dependencies
          (Locals.mk [mkDep Container "node" (Some "18"%string) Tag "node:18"]
                     [SStr "build"] 0)
        = [] ++ others).
Proof.
  split.
  - destruct (@runner_records_of_job (SStr "build")
                [(SStr "runs-on", PStr "ubuntu-latest");
                 (SStr "container", PStr "node:18")]
                (Locals.mk [] [] 0)
                (Locals.mk
                   [mkDep Runner "ubuntu-latest" None Unpinned "ubuntu-latest";
                    mkDep Container "node" (Some "18"%string) Tag "node:18"]
                   [SStr "build"] 0) eq_refl)
      as (others & F & H & _).
    exists others. split; [exact F|].
    exact (H "ubuntu-latest"%string eq_refl ltac:(discriminate)).
  - destruct (@runner_records_of_job (SStr "build")
                [(SStr "runs-on", PStr "");
                 (SStr "container", PStr "node:18")]
                (Locals.mk [] [] 0)
                (Locals.mk
                   [mkDep Container "node" (Some "18"%string) Tag "node:18"]
                   [SStr "build"] 0) eq_refl)
      as (others & F & _ & H & _).
    exists others. split; [exact F|]. exact (H eq_refl).
Defined.

(** C6, counterexample: a job whose [runs-on] is the empty string adds no
    runner record. *)
Lemma empty_runs_on_counterexample :
  analyze_decoded
    (PDict [(SStr "jobs",
             PDict [(SStr "build", PDict [(SStr "runs-on", PStr "")])])])
  = Return (mkAnalysis PNone [SStr "build"] 0 []).
Proof. reflexivity. Qed.

(** C3, as the code has it.  A record of a returned analysis has a
    non-empty name unless it is a runner whose label is the empty string
    (an empty element of a [runs-on] sequence), a container whose reference
    starts with a colon, is [docker://] alone or starts with [docker://:],
    or an action whose reference starts with [@]. *)
Theorem names_of_emitted_records (workflow : pyval) (r : analysis) :
  analyze_decoded workflow = Return r ->
  exists deps,
    dependencies r = map _dependency_to_dict deps /\
    Forall (fun d =>
              name d = ""%string ->
              (type d = Runner /\ raw_reference d = ""%string)
              \/ (type d = Container
                  /\ (PyStr.startswith (raw_reference d) ":" = true
                      \/ raw_reference d = "docker://"%string
                      \/ PyStr.startswith (raw_reference d) "docker://:" = true))
              \/ (type d = Action
                  /\ PyStr.startswith (raw_reference d) "@" = true))
           deps.
Proof.
  intros H. destruct (analyze_decoded_closed _ H) as (w & js & _ & _ & _ & _ & _ & D).
  eexists. split; [exact D|].
  apply Forall_flat_map, Forall_forall. intros entry _.
  apply job_records_Forall; clear.
  - intros label E. left. simpl in *. now split.
  - intros ref N E. right. left. split; [reflexivity|]. left.
    simpl in E. destruct (split_head_empty ":" N E) as (rest & ->).
    apply startswith_first.
  - intros v d H.
    destruct (action_dependency_cases _ H)
      as (uses & _ & N & [(image & -> & ->)|[(a & b & S & ->)| ->]]);
      simpl; intros E.
    + right. left. split; [reflexivity|].
      destruct (PyStr.contains ":" image) eqn:C.
      * right. right.
        assert (Ni : image <> ""%string) by (intros ->; discriminate).
        destruct (split_head_empty ":" Ni E) as (rest & ->).
        exact (startswith_app "docker://:" rest).
      * right. left. now rewrite E.
    + right. right. split; [reflexivity|].
      subst a.
      assert (E : nth 0 (PyStr.split "@" uses) ""%string = ""%string)
        by now rewrite S.
      destruct (split_head_empty "@" N E) as (rest & ->).
      apply startswith_first.
    + congruence.
Qed.

Lemma names_of_emitted_records_witness :
  exists deps,
    dependencies Examples.simple_analysis = map _dependency_to_dict deps /\
    Forall (fun d =>
              name d = ""%string ->
              (type d = Runner /\ raw_reference d = ""%string)
              \/ (type d = Container
                  /\ (PyStr.startswith (raw_reference d) ":" = true
                      \/ raw_reference d = "docker://"%string
                      \/ PyStr.startswith (raw_reference d) "docker://:" = true))
              \/ (type d = Action
                  /\ PyStr.startswith (raw_reference d) "@" = true))
           deps.
Proof.
  exact (@names_of_emitted_records Examples.simple_workflow
           Examples.simple_analysis eq_refl).
Defined.

(** C3, counterexample: the empty label of a [runs-on] sequence gives a
    record whose name is empty. *)
Lemma empty_name_counterexample :
  analyze_decoded
    (PDict [(SStr "jobs",
             PDict [(SStr "build",
                     PDict [(SStr "runs-on",
                             PList [PStr ""; PStr "ubuntu-latest"])])])])
  = Return (mkAnalysis PNone [SStr "build"] 0
              [ PDict [ (SStr "type", PStr "runner");
                        (SStr "name", PStr "");
                        (SStr "version", PNone);
                        (SStr "pinning_strategy", PStr "unpinned");
                        (SStr "raw_reference", PStr "") ];
                PDict [ (SStr "type", PStr "runner");
                        (SStr "name", PStr "ubuntu-latest");
                        (SStr "version", PNone);
                        (SStr "pinning_strategy", PStr "unpinned");
                        (SStr "raw_reference", PStr "ubuntu-latest") ] ]).
Proof. reflexivity. Qed.

(** C10.  In every record of a returned analysis the version is absent
    exactly when the pinning is [Unpinned]. *)
Theorem version_absent_iff_unpinned (workflow : pyval) (r : analysis) :
  analyze_decoded workflow = Return r ->
  exists deps,
    dependencies r = map _dependency_to_dict deps /\
    Forall (fun d => version d = None <-> pinning_strategy d = Unpinned) deps.
Proof.
  intros H. destruct (analyze_decoded_closed _ H) as (w & js & _ & _ & _ & _ & _ & D).
  eexists. split; [exact D|].
  apply Forall_flat_map, Forall_forall. intros entry _.
  apply job_records_Forall; clear.
  - intros label. simpl. now split.
  - intros ref _. simpl.
    destruct (Nat.ltb 1 (List.length (PyStr.split ":" ref)));
      split; discriminate || reflexivity.
  - intros v d H.
    destruct (action_dependency_cases _ H)
      as (uses & _ & _ & [(image & _ & ->)|[(a & b & _ & ->)| ->]]); simpl.
    + destruct (PyStr.contains ":" image); split; discriminate || reflexivity.
    + split; [discriminate|].
      intros E. now apply pinning_never_unpinned in E.
    + now split.
Qed.

Lemma version_absent_iff_unpinned_witness :
  exists deps,
    dependencies Examples.simple_analysis = map _dependency_to_dict deps /\
    Forall (fun d => version d = None <-> pinning_strategy d = Unpinned) deps.
Proof.
  exact (@version_absent_iff_unpinned Examples.simple_workflow
           Examples.simple_analysis eq_refl).
Defined.

(** C8.  The records of a returned analysis follow the document: job after
    job in the order of the [jobs] mapping, and for one job first a runner
    record per label in listed order, then the container record (none or
    one), then for every step in step order its record (none or one). *)
Theorem dependencies_in_traversal_order (workflow : pyval) (r : analysis) :
  analyze_decoded workflow = Return r ->
  exists w js,
    workflow = PDict w
    /\ Py.get_default w "jobs" (PDict []) = PDict js
    /\ dependencies r
       = map _dependency_to_dict
           (flat_map
              (fun entry =>
                 match snd entry with
                 | PDict cfg =>
                     map (fun l => mkDep Runner l None Unpinned l)
                         (Traversal.labels (Py.get cfg "runs-on"))
                     ++ Traversal.container_records cfg
                     ++ flat_map Traversal.step_record (Traversal.step_values cfg)
                 | _ => []
                 end) js)
    /\ (forall cfg, List.length (Traversal.container_records cfg) <= 1)
    /\ (forall step, List.length (Traversal.step_record step) <= 1).
Proof.
  intros H. destruct (analyze_decoded_closed _ H) as (w & js & -> & J & _ & _ & _ & D).
  exists w, js. repeat split; try assumption.
  - intros cfg. unfold Traversal.container_records.
    destruct (Py.truthy _); [apply container_dependencies_at_most_one|simpl; lia].
  - intros step. unfold Traversal.step_record.
    destruct step as [a|l|d|l|l]; simpl; try lia.
    destruct (_extract_action_dependency _); simpl; lia.
Qed.

Lemma dependencies_in_traversal_order_witness :
  map (fun d => Py.get match d with PDict e => e | _ => [] end "type")
      (dependencies Examples.simple_analysis)
  = [PStr "runner"; PStr "action"; PStr "action"]
  /\ exists w js,
    Examples.simple_workflow = PDict w
    /\ Py.get_default w "jobs" (PDict []) = PDict js
    /\ dependencies Examples.simple_analysis
       = map _dependency_to_dict
           (flat_map
              (fun entry =>
                 match snd entry with
                 | PDict cfg =>
                     map (fun l => mkDep Runner l None Unpinned l)
                         (Traversal.labels (Py.get cfg "runs-on"))
                     ++ Traversal.container_records cfg
                     ++ flat_map Traversal.step_record (Traversal.step_values cfg)
                 | _ => []
                 end) js)
    /\ (forall cfg, List.length (Traversal.container_records cfg) <= 1)
    /\ (forall step, List.length (Traversal.step_record step) <= 1).
Proof.
  split; [reflexivity|].
  exact (@dependencies_in_traversal_order Examples.simple_workflow
           Examples.simple_analysis eq_refl).
Defined.

(** C1, at the failing inputs: when the document is a mapping whose [jobs]
    value is not a mapping (a sequence, a string, null), [jobs.items()]
    raises [AttributeError], which is neither of the two [ValueError]s. *)
Theorem jobs_not_a_mapping_raises
    (safe_load : string -> loaded) (text : string)
    (w : pydict) (jobs_value : pyval) :
  safe_load text = Loaded (PDict w) ->
  Py.lookup w "jobs" = Some jobs_value ->
  (forall js, jobs_value <> PDict js) ->
  analyze_workflow safe_load text
  = Raise AttributeError.
Proof.
  intros L J N. unfold analyze_workflow, analyze_decoded, Py.get_default.
  rewrite L, J.
  destruct jobs_value as [a|l|js|l|l]; try reflexivity.
  now contradiction (N js).
Qed.

Lemma jobs_not_a_mapping_raises_witness :
  analyze_workflow (fun _ => Loaded (PDict [(SStr "jobs", PList [])])) "jobs: []"
  = Raise AttributeError
  /\ analyze_workflow (fun _ => Loaded (PDict [(SStr "jobs", PNone)])) "jobs:"
     = Raise AttributeError.
Proof.
  split.
  - apply (@jobs_not_a_mapping_raises _ _ [(SStr "jobs", PList [])] (PList []));
      [reflexivity|reflexivity|discriminate].
  - apply (@jobs_not_a_mapping_raises _ _ [(SStr "jobs", PNone)] PNone);
      [reflexivity|reflexivity|discriminate].
Defined.

(** C2, at the failing input: a job whose [steps] is the string [abc]
    counts three steps. *)
Theorem steps_string_counted_by_character :
  analyze_decoded
    (PDict [(SStr "jobs",
             PDict [(SStr "build", PDict [(SStr "steps", PStr "abc")])])])
  = Return (mkAnalysis PNone [SStr "build"] 3 []).
Proof. reflexivity. Qed.

End Specification.

(** ** Further properties of the analyzer *)

Section Analyzer.
Import WorkflowAnalyzer.

(** The outcome of an analysis, case by case: a document that is no
    mapping raises the [ValueError]; a [jobs] value that is no mapping
    raises [AttributeError]; otherwise the call returns exactly when
    [len(steps)] is defined in every job that is a mapping, and raises
    [TypeError] when it is not. *)
Theorem analyze_decoded_outcomes (workflow : pyval) :
  match workflow with
  | PDict w =>
      match Py.get_default w "jobs" (PDict []) with
      | PDict js =>
          if forallb Traversal.steps_sized js
          then exists r, analyze_decoded workflow = Return r
          else analyze_decoded workflow = Raise TypeError
      | _ => analyze_decoded workflow
             = Raise AttributeError
      end
  | _ => analyze_decoded workflow
         = Raise (ValueError "Workflow must be a YAML dictionary")
  end.
Proof.
  destruct workflow as [a|l|w|l|l]; try reflexivity.
  unfold analyze_decoded.
  destruct (Py.get_default w "jobs" (PDict [])) as [a|l|js|l|l]; try reflexivity.
  destruct (forallb Traversal.steps_sized js) eqn:F.
  - apply (jobs_loop_returns js (Locals.mk [] [] 0)) in F as [st ->].
    simpl. eauto.
  - destruct (jobs_loop js (Locals.mk [] [] 0)) as [st|e] eqn:L.
    + assert (forallb Traversal.steps_sized js = true)
        by (apply (jobs_loop_returns js (Locals.mk [] [] 0)); eauto).
      congruence.
    + simpl. now rewrite (jobs_loop_raises _ _ L).
Qed.

(** How the failures of the loader come out of [analyze_workflow]: a
    [YAMLError] becomes the [ValueError] [Invalid YAML: ...] with its text;
    any other exception of the loader escapes as it is; and once the text
    is decoded, the only [ValueError] the call can raise is [Workflow must
    be a YAML dictionary]. *)
Theorem loader_failures_surface
    (safe_load : string -> loaded) (text : string) :
  (forall e, safe_load text = YAMLError e ->
             analyze_workflow safe_load text
             = Raise (ValueError ("Invalid YAML: " ++ e)))
  /\ (forall x, safe_load text = LoaderRaises x ->
                analyze_workflow safe_load text = Raise x)
  /\ (forall workflow msg,
        safe_load text = Loaded workflow ->
        analyze_workflow safe_load text = Raise (ValueError msg) ->
        msg = "Workflow must be a YAML dictionary"%string
        /\ forall w, workflow <> PDict w).
Proof.
  unfold analyze_workflow. split; [|split].
  - now intros e ->.
  - now intros x ->.
  - intros workflow msg -> H. unfold analyze_decoded in H.
    destruct workflow as [a|l|w|l|l];
      try (injection H as <-; split; [reflexivity|discriminate]).
    exfalso.
    destruct (Py.get_default w "jobs" (PDict [])) as [a|l|js|l|l];
      try discriminate.
    destruct (jobs_loop js (Locals.mk [] [] 0)) as [st|e] eqn:L;
      simpl in H; [discriminate|].
    rewrite (jobs_loop_raises _ _ L) in H. discriminate.
Qed.

Lemma loader_failures_surface_witness :
  analyze_workflow (fun _ => YAMLError "mapping values are not allowed here")
                   "invalid: yaml: content:"
  = Raise (ValueError "Invalid YAML: mapping values are not allowed here")
  /\ analyze_workflow
       (fun _ => LoaderRaises (ValueError "month must be in 1..12"))
       "d: 2001-13-45"
     = Raise (ValueError "month must be in 1..12").
Proof.
  split.
  - destruct (loader_failures_surface
                (fun _ => YAMLError "mapping values are not allowed here")
                "invalid: yaml: content:") as (H & _ & _).
    exact (H _ eq_refl).
  - destruct (loader_failures_surface
                (fun _ => LoaderRaises (ValueError "month must be in 1..12"))
                "d: 2001-13-45") as (_ & H & _).
    exact (H _ eq_refl).
Defined.



(** The job identifiers of a returned analysis are the keys of the entries
    of [jobs] whose value is a mapping, in document order. *)
Theorem job_identifiers (workflow : pyval) (r : analysis) :
  analyze_decoded workflow = Return r ->
  exists w js,
    workflow = PDict w
    /\ Py.get_default w "jobs" (PDict []) = PDict js
    /\ jobs r = map fst (filter (fun e => match snd e with
                                          | PDict _ => true
                                          | _ => false
                                          end) js).
Proof.
  intros H.
  destruct (analyze_decoded_closed _ H) as (w & js & -> & J & _ & N & _ & _).
  exists w, js. repeat split; try assumption.
  rewrite N. clear. unfold Traversal.job_names.
  induction js as [|[n v] rest IH]; simpl; [reflexivity|].
  destruct v; simpl; now rewrite IH.
Qed.

Lemma job_identifiers_witness :
  exists w js,
    Examples.simple_workflow = PDict w
    /\ Py.get_default w "jobs" (PDict []) = PDict js
    /\ jobs Examples.simple_analysis
       = map fst (filter (fun e => match snd e with
                                   | PDict _ => true
                                   | _ => false
                                   end) js).
Proof.
  exact (@job_identifiers Examples.simple_workflow Examples.simple_analysis
           eq_refl).
Defined.

Lemma jobs_loop_skips (name : scalar) (v : pyval) (before after : pydict) :
  (forall cfg, v <> PDict cfg) ->
  forall st,
    jobs_loop (before ++ (name, v) :: after) st = jobs_loop (before ++ after) st.
Proof.
  intros N. induction before as [|[n c] rest IH]; intros st; simpl.
  - destruct v as [a|l|cfg|l|l]; try reflexivity. now contradiction (N cfg).
  - destruct (job_body n c st); simpl; [apply IH|reflexivity].
Qed.

(** A job whose value is no mapping changes nothing: two documents with
    the same name whose jobs differ by such an entry have the same outcome. *)
Theorem malformed_job_is_skipped
    (name : scalar) (v : pyval) (w w' before after : pydict) :
  (forall cfg, v <> PDict cfg) ->
  Py.lookup w "jobs" = Some (PDict (before ++ (name, v) :: after)) ->
  Py.lookup w' "jobs" = Some (PDict (before ++ after)) ->
  Py.get w "name" = Py.get w' "name" ->
  analyze_decoded (PDict w) = analyze_decoded (PDict w').
Proof.
  intros N J J' E. unfold analyze_decoded, Py.get_default.
  rewrite J, J', E. now rewrite (jobs_loop_skips name before after N).
Qed.

Lemma malformed_job_is_skipped_witness :
  analyze_decoded (PDict Examples.simple_mapping_with_todo)
  = analyze_decoded (PDict Examples.simple_mapping).
Proof.
  apply (@malformed_job_is_skipped (SStr "docs") (PStr "todo")
           Examples.simple_mapping_with_todo Examples.simple_mapping
           [] Examples.simple_jobs).
  - discriminate.
  - reflexivity.
  - reflexivity.
  - reflexivity.
Defined.

Lemma jobs_loop_app (js1 js2 : pydict) :
  forall st,
    jobs_loop (js1 ++ js2) st = (st' <- jobs_loop js1 st ;; jobs_loop js2 st').
Proof.
  induction js1 as [|[n c] rest IH]; intros st; simpl; [reflexivity|].
  destruct (job_body n c st); simpl; [apply IH|reflexivity].
Qed.

(** Jobs are analysed one after the other: when the jobs of a document
    are those of a first document followed by those of a second, no key
    occurring twice, and both analyses return, the analysis of the document
    returns the job names and the records of the first followed by those of
    the second, and the sum of their step counts. *)
Theorem analysis_of_concatenated_jobs
    (w1 w2 w js1 js2 : pydict) (r1 r2 : analysis) :
  Py.distinct_keys (js1 ++ js2) = true ->
  Py.get_default w1 "jobs" (PDict []) = PDict js1 ->
  Py.get_default w2 "jobs" (PDict []) = PDict js2 ->
  Py.get_default w "jobs" (PDict []) = PDict (js1 ++ js2) ->
  analyze_decoded (PDict w1) = Return r1 ->
  analyze_decoded (PDict w2) = Return r2 ->
  analyze_decoded (PDict w)
  = Return {| workflow_name := Py.get w "name";
              jobs := jobs r1 ++ jobs r2;
              total_steps := total_steps r1 + total_steps r2;
              dependencies := dependencies r1 ++ dependencies r2 |}.
Proof.
  intros _ J1 J2 J. unfold analyze_decoded. rewrite J1, J2, J.
  rewrite jobs_loop_app.
  destruct (jobs_loop js1 (Locals.mk [] [] 0)) as [s1|] eqn:L1;
    simpl; [|discriminate].
  intros [= <-].
  destruct (jobs_loop js2 (Locals.mk [] [] 0)) as [s2|] eqn:L2;
    simpl; [|discriminate].
  intros [= <-]. simpl.
  destruct (jobs_loop_returns js2 s1) as [_ R].
  destruct R as [s3 L3]; [apply (jobs_loop_returns js2 (Locals.mk [] [] 0)); eauto|].
  rewrite L3. simpl.
  destruct (jobs_loop_closed _ _ L2) as (D2 & J2' & T2).
  destruct (jobs_loop_closed _ _ L3) as (D3 & J3 & T3).
  simpl in *. rewrite D3, J3, T3, D2, J2', T2, map_app. reflexivity.
Qed.

Lemma analysis_of_concatenated_jobs_witness :
  Py.distinct_keys (Examples.simple_jobs ++ Examples.lint_jobs) = true
  /\ analyze_decoded
       (PDict [ (SStr "name", PStr "Complex CI");
                (SStr "jobs",
                 PDict (Examples.simple_jobs ++ Examples.lint_jobs)) ])
     = Return {| workflow_name := PStr "Complex CI";
                 jobs := [SStr "test"; SStr "lint"];
                 total_steps := 2 + 1;
                 dependencies :=
                   dependencies Examples.simple_analysis
                   ++ dependencies Examples.lint_analysis |}.
Proof.
  split; [reflexivity|].
  exact (@analysis_of_concatenated_jobs
           Examples.simple_mapping
           [(SStr "jobs", PDict Examples.lint_jobs)]
           [ (SStr "name", PStr "Complex CI");
             (SStr "jobs", PDict (Examples.simple_jobs ++ Examples.lint_jobs)) ]
           Examples.simple_jobs Examples.lint_jobs
           Examples.simple_analysis Examples.lint_analysis
           eq_refl eq_refl eq_refl eq_refl eq_refl eq_refl).
Defined.

(** A reference is classified [Sha] exactly when it is forty lowercase
    hexadecimal characters, alone or followed by one newline. *)
Theorem sha_classification (version_ref : string) :
  _determine_pinning_strategy version_ref = Sha <->
  exists h, String.length h = 40 /\ PyStr.all Re.lower_hex h = true
            /\ (version_ref = h
                \/ version_ref = (h ++ String Re.newline "")%string).
Proof.
  rewrite <- sha_pattern_matches. unfold _determine_pinning_strategy.
  destruct (Re.matches SHA_PATTERN version_ref); [now split|].
  destruct (Re.matches SEMVER_PATTERN version_ref); [now split|].
  destruct (existsb _ _); now split.
Qed.

(** [SEMVER_PATTERN] decides nothing: a reference is [Sha] when
    [SHA_PATTERN] matches, else [Branch] when it is one of the four branch
    names, else [Tag]; it is never [Unpinned]. *)
Theorem pinning_strategy_without_semver (version_ref : string) :
  _determine_pinning_strategy version_ref
  = (if Re.matches SHA_PATTERN version_ref then Sha
     else if existsb (String.eqb version_ref)
                     ["main"; "master"; "develop"; "dev"]%string
          then Branch
     else Tag)
  /\ _determine_pinning_strategy version_ref <> Unpinned.
Proof.
  split; [|apply pinning_never_unpinned].
  unfold _determine_pinning_strategy.
  destruct (Re.matches SHA_PATTERN version_ref); [reflexivity|].
  destruct (existsb _ _) eqn:B.
  - now rewrite (branch_names_not_semver _ B).
  - now destruct (Re.matches SEMVER_PATTERN version_ref).
Qed.

(** A [uses] value yields no record exactly when it is not a non-empty
    string or it names a local action ([./...] or [../...]). *)
Theorem no_record_iff_local_or_empty (v : pyval) :
  _extract_action_dependency v = None <->
  (forall uses, v = PStr uses ->
     uses = ""%string
     \/ PyStr.startswith uses "./" = true
     \/ PyStr.startswith uses "../" = true).
Proof.
  unfold _extract_action_dependency. split.
  - intros H uses ->.
    destruct uses as [|c rest]; [now left|]. right.
    change (negb (Py.truthy (PStr (String c rest)))) with false in H.
    cbv beta iota in H.
    destruct (PyStr.startswith (String c rest) "docker://"); [discriminate|].
    destruct (PyStr.startswith (String c rest) "./"); [now left|].
    destruct (PyStr.startswith (String c rest) "../"); [now right|].
    cbv beta iota delta [orb] in H.
    destruct (PyStr.split "@" (String c rest)) as [|x [|y [|z l]]]; discriminate.
  - intros H.
    destruct (Py.truthy v) eqn:T; simpl; [|reflexivity].
    destruct v as [a| | | |]; try reflexivity.
    destruct a as [| | | |uses| |]; try reflexivity.
    destruct (H uses eq_refl) as [-> | L]; [discriminate|].
    assert (D : PyStr.startswith uses "docker://" = false).
    { destruct L as [L|L]; rewrite (startswith_decompose _ _ L); reflexivity. }
    rewrite D. destruct L as [-> | ->]; [reflexivity|].
    now rewrite orb_true_r.
Qed.

Lemma no_record_iff_local_or_empty_witness :
  _extract_action_dependency (PStr "./local-action") = None.
Proof.
  apply no_record_iff_local_or_empty.
  intros uses [= <-]. right. left. reflexivity.
Defined.

(** joining the pieces of a split with the separator gives the string
    back *)
Lemma concat_split (c : ascii) (s : string) :
  String.concat (String c "") (PyStr.split c s) = s.
Proof.
  induction s as [|a r IH]; simpl; [reflexivity|].
  destruct (Ascii.eqb a c) eqn:E.
  - apply Ascii.eqb_eq in E. subst a.
    pose proof (split_not_nil c r) as N.
    destruct (PyStr.split c r) as [|h t]; [congruence|].
    simpl in *. now rewrite IH.
  - pose proof (split_not_nil c r) as N.
    destruct (PyStr.split c r) as [|h t]; [congruence|].
    simpl in *. destruct t; simpl in *; now rewrite <- IH.
Qed.

(** A record built from a [uses] string keeps that string as its raw
    reference; it is a container exactly when the string starts with
    [docker://]; and an action that has a version is written
    [name@version]. *)
Theorem action_record_keeps_reference (v : pyval) (d : WorkflowDependency) :
  _extract_action_dependency v = Some d ->
  v = PStr (raw_reference d)
  /\ (type d = Container <->
      PyStr.startswith (raw_reference d) "docker://" = true)
  /\ type d <> Runner
  /\ (forall ver, type d = Action -> version d = Some ver ->
        raw_reference d = (name d ++ "@" ++ ver)%string).
Proof.
  unfold _extract_action_dependency.
  destruct (Py.truthy v) eqn:T; simpl; [|discriminate].
  destruct v as [a| | | |]; try discriminate.
  destruct a as [| | | |uses| |]; try discriminate.
  destruct (PyStr.startswith uses "docker://") eqn:D.
  - intros [= <-]. simpl. rewrite D. repeat split; discriminate.
  - destruct (PyStr.startswith uses "./" || PyStr.startswith uses "../");
      [discriminate|].
    pose proof (concat_split "@" uses) as J.
    destruct (PyStr.split "@" uses) as [|x [|y [|z l]]];
      intros [= <-]; simpl; rewrite D;
      (repeat split; try discriminate; try congruence).
    intros ver _ [= <-]. simpl in J. now rewrite <- J.
Qed.

Lemma action_record_keeps_reference_witness :
  PStr "actions/checkout@v3" = PStr "actions/checkout@v3"
  /\ "actions/checkout@v3"%string = ("actions/checkout" ++ "@" ++ "v3")%string.
Proof.
  destruct (@action_record_keeps_reference
              (PStr "actions/checkout@v3")
              (mkDep Action "actions/checkout" (Some "v3"%string) Tag
                     "actions/checkout@v3") eq_refl) as (E & _ & _ & R).
  split; [exact E|]. exact (R "v3"%string eq_refl eq_refl).
Defined.

(** The dictionary of a record determines the record. *)
Theorem dependency_to_dict_injective (d1 d2 : WorkflowDependency) :
  _dependency_to_dict d1 = _dependency_to_dict d2 -> d1 = d2.
Proof.
  destruct d1 as [t1 n1 v1 p1 r1], d2 as [t2 n2 v2 p2 r2].
  unfold _dependency_to_dict. simpl. intros H.
  injection H as Ht Hn Hv Hp Hr. subst.
  assert (t1 = t2) by (destruct t1, t2; simpl in Ht; congruence).
  assert (p1 = p2) by (destruct p1, p2; simpl in Hp; congruence).
  assert (v1 = v2) by (destruct v1, v2; congruence).
  congruence.
Qed.

Lemma dependency_to_dict_injective_witness :
  mkDep Runner "ubuntu-latest" None Unpinned "ubuntu-latest"
  = mkDep Runner "ubuntu-latest" None Unpinned "ubuntu-latest".
Proof.
  exact (@dependency_to_dict_injective _ _ eq_refl).
Defined.

Lemma step_values_length (cfg : pydict) :
  List.length (Traversal.step_values cfg)
  = Traversal.step_count (SNone, PDict cfg).
Proof.
  unfold Traversal.step_values, Traversal.step_count. simpl.
  destruct (Py.len (Py.get_default cfg "steps" (PList []))) as [n|] eqn:L.
  - now destruct (len_iter _ L) as (items & -> & <-).
  - destruct (Py.get_default cfg "steps" (PList [])) as [a| | | |];
      try discriminate.
    destruct a; try discriminate; reflexivity.
Qed.

Lemma flat_map_length_le {A B : Type} (f : A -> list B) (l : list A) :
  (forall a, List.length (f a) <= 1) ->
  List.length (flat_map f l) <= List.length l.
Proof.
  intros H. induction l as [|a rest IH]; simpl; [lia|].
  rewrite length_app. specialize (H a). lia.
Qed.

Lemma filter_length_le {A : Type} (p : A -> bool) (l : list A) :
  List.length (filter p l) <= List.length l.
Proof.
  induction l as [|a rest IH]; simpl; [lia|].
  destruct (p a); simpl; lia.
Qed.

Lemma job_records_bound (entry : scalar * pyval) :
  List.length (filter Traversal.not_runner (Traversal.job_records entry))
  <= List.length (Traversal.job_names [entry]) + Traversal.step_count entry.
Proof.
  destruct entry as [n v]. unfold Traversal.job_records, Traversal.job_names.
  simpl. destruct v as [a|l|cfg|l|l]; simpl; try lia.
  rewrite !filter_app, !length_app.
  assert (R : filter Traversal.not_runner (Traversal.runner_records cfg) = []).
  { unfold Traversal.runner_records.
    induction (Traversal.labels (Py.get cfg "runs-on")); simpl; congruence. }
  rewrite R. simpl.
  pose proof (filter_length_le Traversal.not_runner
                (Traversal.container_records cfg)) as C.
  pose proof (filter_length_le Traversal.not_runner
                (Traversal.step_records cfg)) as S.
  assert (C1 : List.length (Traversal.container_records cfg) <= 1).
  { unfold Traversal.container_records.
    destruct (Py.truthy _); [apply container_dependencies_at_most_one|simpl; lia]. }
  assert (S1 : List.length (Traversal.step_records cfg)
               <= List.length (Traversal.step_values cfg)).
  { apply flat_map_length_le. intros step. unfold Traversal.step_record.
    destruct step as [a|l|d|l|l]; simpl; try lia.
    destruct (_extract_action_dependency _); simpl; lia. }
  rewrite step_values_length in S1.
  change (Traversal.step_count (n, PDict cfg))
    with (Traversal.step_count (SNone, PDict cfg)).
  lia.
Qed.

(** A job adds at most one container record and at most one record per
    step: the records that are no runners are at most as many as the jobs
    and the steps together. *)
Theorem records_bounded_by_jobs_and_steps (workflow : pyval) (r : analysis) :
  analyze_decoded workflow = Return r ->
  exists deps,
    dependencies r = map _dependency_to_dict deps
    /\ List.length (filter Traversal.not_runner deps)
       <= List.length (jobs r) + total_steps r.
Proof.
  intros H.
  destruct (analyze_decoded_closed _ H) as (w & js & _ & _ & _ & N & T & D).
  eexists. split; [exact D|]. rewrite N, T. clear.
  induction js as [|e rest IH]; [simpl; lia|].
  cbn [flat_map map list_sum].
  pose proof (job_records_bound e) as B.
  assert (N : Traversal.job_names (e :: rest)
              = Traversal.job_names [e] ++ Traversal.job_names rest).
  { unfold Traversal.job_names. simpl. now rewrite app_nil_r. }
  rewrite N, filter_app, !length_app.
  change (list_sum (Traversal.step_count e :: map Traversal.step_count rest))
    with (Traversal.step_count e + list_sum (map Traversal.step_count rest)).
  lia.
Qed.

Lemma records_bounded_by_jobs_and_steps_witness :
  exists deps,
    dependencies Examples.simple_analysis = map _dependency_to_dict deps
    /\ List.length (filter Traversal.not_runner deps) <= 1 + 2.
Proof.
  exact (@records_bounded_by_jobs_and_steps Examples.simple_workflow
           Examples.simple_analysis eq_refl).
Defined.

(** A [docker://] step reference is read like a job's container string:
    the record of [docker://ref] is the record of the container [ref],
    with the whole [uses] string as its raw reference. *)
Theorem docker_reference_is_container_reference (ref : string) :
  exists d,
    _extract_container_dependencies (PStr ref) = [d]
    /\ raw_reference d = ref
    /\ _extract_action_dependency (PStr ("docker://" ++ ref))
       = Some (mkDep (type d) (name d) (version d) (pinning_strategy d)
                     ("docker://" ++ ref)).
Proof.
  eexists. split; [reflexivity|]. split; [reflexivity|].
  rewrite docker_reference. unfold container_dependency. simpl.
  rewrite split_length, contains_count.
  destruct (PyStr.count ":" ref) eqn:C; simpl; [|reflexivity].
  assert (N : PyStr.contains ":" ref = false) by now rewrite contains_count, C.
  now rewrite (split_no_separator _ _ N).
Qed.

(** The pinning of a record follows from its kind: a runner is unpinned,
    has no version and is named by its raw reference; a container is
    [Tag] or [Unpinned], never [Sha] or [Branch]; an action that has a
    version is pinned as [_determine_pinning_strategy] says of that
    version. *)
Theorem pinning_by_kind (workflow : pyval) (r : analysis) :
  analyze_decoded workflow = Return r ->
  exists deps,
    dependencies r = map _dependency_to_dict deps /\
    Forall (fun d =>
              match type d with
              | Runner =>
                  version d = None /\ pinning_strategy d = Unpinned
                  /\ name d = raw_reference d
              | Container =>
                  pinning_strategy d = Tag \/ pinning_strategy d = Unpinned
              | Action =>
                  forall v, version d = Some v ->
                            pinning_strategy d = _determine_pinning_strategy v
              end) deps.
Proof.
  intros H.
  destruct (analyze_decoded_closed _ H) as (w & js & _ & _ & _ & _ & _ & D).
  eexists. split; [exact D|].
  apply Forall_flat_map, Forall_forall. intros entry _.
  apply job_records_Forall; clear.
  - intros label. simpl. now repeat split.
  - intros ref _. simpl.
    destruct (Nat.ltb 1 (List.length (PyStr.split ":" ref))); [now left|now right].
  - intros v d H.
    destruct (action_dependency_cases _ H)
      as (uses & _ & _ & [(image & _ & ->)|[(a & b & _ & ->)| ->]]); simpl.
    + destruct (PyStr.contains ":" image); [now left|now right].
    + now intros v' [= <-].
    + discriminate.
Qed.

Lemma pinning_by_kind_witness :
  exists deps,
    dependencies Examples.simple_analysis = map _dependency_to_dict deps /\
    Forall (fun d =>
              match type d with
              | Runner =>
                  version d = None /\ pinning_strategy d = Unpinned
                  /\ name d = raw_reference d
              | Container =>
                  pinning_strategy d = Tag \/ pinning_strategy d = Unpinned
              | Action =>
                  forall v, version d = Some v ->
                            pinning_strategy d = _determine_pinning_strategy v
              end) deps.
Proof.
  exact (@pinning_by_kind Examples.simple_workflow Examples.simple_analysis
           eq_refl).
Defined.

End Analyzer.

(** ** Properties of the handler *)

Section HandlerFacts.
Import Handler.

Variable safe_load : string -> loaded.
Variable json_loads : pyval -> outcome pyval.
Variable json_dumps : pyval -> outcome string.
Variable get_workflow_content :
  string -> pyval -> pyval -> pyval -> pyval -> outcome string.
Variable utcnow_isoformat : nat -> string.

Local Abbreviation loop :=
  (records_loop safe_load json_loads json_dumps get_workflow_content
                utcnow_isoformat).

Lemma records_loop_counts (token : string) (records : list pyval) :
  forall index p f,
    fst (loop token records index p f) + snd (loop token records index p f)
    = p + f + List.length records.
Proof.
  induction records as [|record rest IH]; intros index p f; simpl; [lia|].
  destruct (process_record _ _ _ _ _ _ _ _); rewrite IH; lia.
Qed.

(** When the handler returns, the status is 200 and the body is the dump
    of two counts that add up to the number of records: every record is
    counted once, as processed or as failed. *)
Theorem lambda_handler_counts_every_record
    (GITHUB_TOKEN : option string) (event : pydict) (resp : response) :
  lambda_handler safe_load json_loads json_dumps GITHUB_TOKEN
                 get_workflow_content utcnow_isoformat event = Return resp ->
  statusCode resp = 200%Z
  /\ exists processed failed,
       json_dumps (counts_dict processed failed) = Return (body resp)
       /\ Py.len (Py.get_default event "Records" (PList []))
          = Some (processed + failed).
Proof.
  unfold lambda_handler.
  destruct (Py.len (Py.get_default event "Records" (PList []))) as [n|] eqn:L;
    [|discriminate].
  destruct (len_iter _ L) as (items & -> & Hn).
  destruct GITHUB_TOKEN as [token|]; [|discriminate].
  destruct (PyStr.nonempty token); [|discriminate].
  pose proof (records_loop_counts token items 0 0 0) as C.
  destruct (records_loop _ _ _ _ _ _ _ _ _ _) as [p f]. simpl in C.
  destruct (json_dumps (counts_dict p f)) as [text|] eqn:J; simpl; [|discriminate].
  intros [= <-]. simpl. split; [reflexivity|].
  exists p, f. split; [exact J|]. f_equal. lia.
Qed.

(** With a token in the environment and a [Records] value that has a
    length, no record can make the handler raise: it returns status 200,
    provided [json.dumps] renders a dictionary of two counts. *)
Theorem lambda_handler_survives_every_record
    (token : string) (event : pydict) (n : nat) :
  token <> ""%string ->
  Py.len (Py.get_default event "Records" (PList [])) = Some n ->
  (forall p f, exists text, json_dumps (counts_dict p f) = Return text) ->
  exists resp,
    lambda_handler safe_load json_loads json_dumps (Some token)
                   get_workflow_content utcnow_isoformat event = Return resp
    /\ statusCode resp = 200%Z.
Proof.
  intros T L D. unfold lambda_handler. rewrite L.
  destruct (len_iter _ L) as (items & -> & _).
  apply nonempty_true in T. rewrite T.
  destruct (records_loop _ _ _ _ _ _ _ _ _ _) as [p f].
  destruct (D p f) as [text ->]. simpl. eauto.
Qed.

(** Without a token (unset or empty) the handler never returns, and how
    it fails depends on nothing but whether [Records] has a length: the
    [TypeError] of [len] when it has none, the [ValueError] of the missing
    token when it has one, whatever the records hold and whatever loading,
    fetching and dumping would do. *)
Theorem lambda_handler_without_token
    (GITHUB_TOKEN : option string) (event : pydict) :
  GITHUB_TOKEN = None \/ GITHUB_TOKEN = Some ""%string ->
  lambda_handler safe_load json_loads json_dumps GITHUB_TOKEN
                 get_workflow_content utcnow_isoformat event
  = match Py.len (Py.get_default event "Records" (PList [])) with
    | Some _ => Raise (ValueError "GITHUB_TOKEN environment variable not set")
    | None => Raise TypeError
    end.
Proof.
  intros T. unfold lambda_handler.
  destruct (Py.len (Py.get_default event "Records" (PList []))) as [n|] eqn:L;
    [|reflexivity].
  destruct (len_iter _ L) as (items & -> & _).
  destruct T as [-> | ->]; reflexivity.
Qed.

(** The records are handled one after the other: the counts after two runs
    of records are those of the second run started from the counts of the
    first. *)
Theorem records_loop_app (token : string) (first second : list pyval) :
  forall index p f,
    loop token (first ++ second) index p f
    = loop token second (index + List.length first)
        (fst (loop token first index p f))
        (snd (loop token first index p f)).
Proof.
  induction first as [|record rest IH]; intros index p f; simpl.
  - now rewrite Nat.add_0_r.
  - destruct (process_record _ _ _ _ _ _ _ _);
      rewrite IH; now rewrite Nat.add_succ_r.
Qed.


End HandlerFacts.

(** ** The handler theorems at a concrete world *)

Section HandlerWitnesses.
Import Handler Examples.

Lemma lambda_handler_counts_every_record_witness :
  statusCode (mkResponse 200 "{}") = 200%Z
  /\ exists processed failed,
       toy_dumps (counts_dict processed failed)
       = Return (body (mkResponse 200 "{}"))
       /\ Py.len (Py.get_default two_records "Records" (PList []))
          = Some (processed + failed).
Proof.
  exact (@lambda_handler_counts_every_record toy_load toy_loads toy_dumps
           toy_fetch toy_clock (Some "t"%string) two_records
           (mkResponse 200 "{}") eq_refl).
Defined.

Lemma lambda_handler_survives_every_record_witness :
  exists resp,
    lambda_handler toy_load toy_loads toy_dumps (Some "t"%string)
                   toy_fetch toy_clock two_records = Return resp
    /\ statusCode resp = 200%Z.
Proof.
  apply (@lambda_handler_survives_every_record toy_load toy_loads toy_dumps
           toy_fetch toy_clock "t"%string two_records 2).
  - discriminate.
  - reflexivity.
  - intros p f. now exists "{}"%string.
Defined.

Lemma lambda_handler_without_token_witness :
  lambda_handler toy_load toy_loads toy_dumps None toy_fetch toy_clock two_records
  = Raise (ValueError "GITHUB_TOKEN environment variable not set")
  /\ lambda_handler toy_load toy_loads toy_dumps (Some ""%string)
                    toy_fetch toy_clock unsized_records
     = Raise TypeError.
Proof.
  split.
  - apply (@lambda_handler_without_token toy_load toy_loads toy_dumps
             toy_fetch toy_clock None two_records). now left.
  - apply (@lambda_handler_without_token toy_load toy_loads toy_dumps
             toy_fetch toy_clock (Some ""%string) unsized_records). now right.
Defined.


End HandlerWitnesses.
